(** * Transit kiosk: offline-resilient trip and fare engine

    A shallow embedding of the kiosk front end's core
    ([configManager.js], [failedOpsWriter.js], [offlineWrapper.js],
    [fareStore.js], [testConfig.js], [scannerService.js]) and the properties
    of its specification that can be settled on it.

    Conventions of the embedding.
    - A JavaScript number that carries money is a binary64 value
      ([PrimFloat.float]); [-], [<] and [||] are the IEEE operations the
      engine executes.  Station, card and trip identifiers are integers ([Z]).
    - [localStorage] is a typed view of the four key families the code uses
      ([card_balance_<uuid>], [card_trip_<uuid>], [failed_operations],
      [kiosk_id]); the key families are disjoint by their prefixes.  A number
      is stored as its shortest round-trip decimal ([toString]) and read back
      by [parseFloat], which returns the number written.
    - A backend request either resolves with data or rejects; the backend is
      a record of per-endpoint results ([None] is a rejected promise).  The
      three reads of [ConfigManager.initialize], which checks nothing, are
      given with the shape of the body they resolve with.
    - An amount shown to the passenger is the text [toFixed(2)] prints; an
      identifier put in a label is its decimal digits.
    - [Date.now()], [Math.random()] and [toISOString()] are read from a
      [Clock] record handed to each handler.
    - A fire-and-forget promise chain is run to completion inside the handler
      that starts it: the handlers return the state reached once the chain
      has settled. *)

From Stdlib Require Import ZArith Bool Lia Floats.
From stdpp Require Import gmap strings list pretty.

Open Scope Z_scope.

(* ===================================================================== *)
(** ** JavaScript values used by the engine *)
(* ===================================================================== *)

Module JS.

(** [Boolean(x)] for a number: [0], [-0] and [NaN] are falsy. *)
Definition truthy (x : float) : bool :=
  negb (PrimFloat.is_zero x || PrimFloat.is_nan x).

(** [x || y] on numbers. *)
Definition or_else (x y : float) : float :=
  if truthy x then x else y.

(** [Boolean(n)] for an integer identifier. *)
Definition truthyZ (n : Z) : bool := negb (n =? 0).

(** [a || b] on identifiers; [None] is [undefined] or the [NaN] that
    [parseInt] yields on an unset variable. *)
Definition or_id (a b : option Z) : option Z :=
  match a with
  | Some n => if truthyZ n then Some n else b
  | None => b
  end.

(** [x < y] where [y] may be [null], which [<] converts to [+0]. *)
Definition lt_nullable (x : float) (y : option float) : bool :=
  match y with
  | Some y => PrimFloat.ltb x y
  | None => PrimFloat.ltb x 0
  end.

(** [Array.prototype.slice(-n)]: the last [n] elements. *)
Definition slice_last {A} (n : nat) (l : list A) : list A :=
  drop (length l - n)%nat l.

(** The binary64 value nearest to the two-digit decimal amount [c/100]
    (what the literal [c/100] written in decimal denotes). *)
Definition cents (c : Z) : float :=
  (PrimFloat.of_uint63 (Uint63.of_Z c) / 100)%float.

(** [Number.prototype.toFixed(2)], on the positive value [m * 2^e]: the
    integer [n] for which [n / 100 - m * 2^e] is as close to zero as
    possible, the larger one when there are two. *)
Definition hundredths (m : positive) (e : Z) : Z :=
  if 0 <=? e then 100 * Z.pos m * 2 ^ e
  else (200 * Z.pos m + 2 ^ (- e)) / (2 * 2 ^ (- e)).

Definition two_digits (n : Z) : string :=
  if n <? 10 then "0" +:+ pretty n else pretty n.

(** The digits of [n], padded to three, with a point before the last
    two, after the sign. *)
Definition decimal2 (negative : bool) (n : Z) : string :=
  (if negative then "-" else "") +:+
  pretty (n / 100) +:+ "." +:+ two_digits (n mod 100).

(** [x.toFixed(2)].  A value that is not finite prints as [String(x)];
    [-0] prints as [0.00]; a negative value prints its sign even when it
    rounds to zero.  From [10^21] on the text is [String(x)], in exponent
    notation, which is not rendered here: [None]. *)
Definition toFixed2 (x : float) : option string :=
  match Prim2SF x with
  | S754_nan => Some "NaN"
  | S754_infinity s => Some (if s then "-Infinity" else "Infinity")
  | S754_zero _ => Some "0.00"
  | S754_finite s m e =>
      if (1e21 <=? abs x)%float then None
      else Some (decimal2 s (hundredths m e))
  end.

(** [`${n}`] for an integer identifier: its decimal digits as long as
    [n] is a safe integer ([|n| < 2^53]).  Beyond that a number prints
    with its shortest round-trip digits or in exponent notation
    ([1e+21]), which is not rendered here: [None]. *)
Definition interpolate (n : Z) : option string :=
  if Z.abs n <? 2 ^ 53 then Some (pretty n) else None.

End JS.

(* ===================================================================== *)
(** ** Data model *)
(* ===================================================================== *)

Module Station.
Record t := { id : Z; name : string }.
End Station.

(** An entry of [config.pricing]. *)
Record FareEntry := { stationA : Z; stationB : Z; fare : float }.

(** A row of the backend's [/pricing] response. *)
Record PricingRow := { station_a_id : Z; station_b_id : Z; price : float }.

(** [this.config]; [minimumFare] is [None] when the property holds
    [undefined]. *)
Record Config := {
  stations : list Station.t;
  pricing : list FareEntry;
  minimumFare : option float
}.

(* ===================================================================== *)
(** ** config/transitConfig.js: the bundled static snapshot *)
(* ===================================================================== *)

Module transitConfig.

Definition stations : list Station.t :=
  [ {| Station.id := 1; Station.name := "Central Station" |};
    {| Station.id := 2; Station.name := "Union Square" |};
    {| Station.id := 3; Station.name := "Airport Terminal" |};
    {| Station.id := 4; Station.name := "Downtown" |};
    {| Station.id := 5; Station.name := "University" |};
    {| Station.id := 6; Station.name := "Stadium" |};
    {| Station.id := 7; Station.name := "Harbor Point" |};
    {| Station.id := 8; Station.name := "Tech Center" |} ].

Definition pricing : list FareEntry :=
  [ {| stationA := 1; stationB := 2; fare := 3.25 |};
    {| stationA := 1; stationB := 3; fare := 4.5 |};
    {| stationA := 1; stationB := 4; fare := 2.75 |};
    {| stationA := 1; stationB := 5; fare := 5.0 |};
    {| stationA := 1; stationB := 6; fare := 3.75 |};
    {| stationA := 1; stationB := 7; fare := 4.25 |};
    {| stationA := 1; stationB := 8; fare := 3.5 |};
    {| stationA := 2; stationB := 3; fare := 4.0 |};
    {| stationA := 2; stationB := 4; fare := 2.5 |};
    {| stationA := 2; stationB := 5; fare := 5.5 |};
    {| stationA := 2; stationB := 6; fare := 3.0 |};
    {| stationA := 2; stationB := 7; fare := 4.75 |};
    {| stationA := 2; stationB := 8; fare := 3.25 |};
    {| stationA := 3; stationB := 4; fare := 2.25 |};
    {| stationA := 3; stationB := 5; fare := 4.5 |};
    {| stationA := 3; stationB := 6; fare := 3.75 |};
    {| stationA := 3; stationB := 7; fare := 5.25 |};
    {| stationA := 3; stationB := 8; fare := 2.75 |};
    {| stationA := 4; stationB := 5; fare := 4.0 |};
    {| stationA := 4; stationB := 6; fare := 3.5 |};
    {| stationA := 4; stationB := 7; fare := 4.25 |};
    {| stationA := 4; stationB := 8; fare := 2.5 |};
    {| stationA := 5; stationB := 6; fare := 5.0 |};
    {| stationA := 5; stationB := 7; fare := 3.25 |};
    {| stationA := 5; stationB := 8; fare := 4.75 |};
    {| stationA := 6; stationB := 7; fare := 3.75 |};
    {| stationA := 6; stationB := 8; fare := 2.25 |};
    {| stationA := 7; stationB := 8; fare := 3.25 |} ].

Definition minimumFare : float := 2.25.

End transitConfig.

(* ===================================================================== *)
(** ** The backend, as the raw client [api/client.js] sees it *)
(* ===================================================================== *)

(** [{ id }] of a card row, [{ id }] of a trip row. *)
Record Card := { card_id : Z }.
Record ActiveTrip := { trip_id : Z }.

(** Each field is the outcome of one request: [None] when the promise
    rejects (network error, timeout, HTTP error status), [Some d] when it
    resolves with [response.data = d].  A lookup that resolves with [null]
    is [Some None]. *)
Record Backend := {
  api_getStations : option (list Station.t);
  api_getAllPricing : option (list PricingRow);
  api_getMinimumFare : option float;
  api_getFareBetweenStations : Z -> Z -> option float;
  api_createTrip : string -> Z -> option unit;
  api_getCardByUuid : string -> option (option Card);
  api_getActiveTrip : Z -> option (option ActiveTrip);
  api_completeTrip : Z -> Z -> float -> option unit
}.

(** Every request rejects. *)
Definition unreachable : Backend :=
  {| api_getStations := None;
     api_getAllPricing := None;
     api_getMinimumFare := None;
     api_getFareBetweenStations := fun _ _ => None;
     api_createTrip := fun _ _ => None;
     api_getCardByUuid := fun _ => None;
     api_getActiveTrip := fun _ => None;
     api_completeTrip := fun _ _ _ => None |}.

(** What the three reads of [ConfigManager.initialize] resolve with.
    The client returns [response.data] as it arrives and [initialize]
    checks nothing, so the shape of a resolved body matters:
    - [/stations]: an array of stations, or [null], whose [length] cannot
      be read;
    - [/pricing]: an array of rows, or anything else ([null], an object,
      a string), which has no [map];
    - [/pricing/minimum]: [null], whose properties cannot be read, or any
      other value, with or without a [minimum_fare].
    The stations and rows inside an array, and a [minimum_fare] that is
    present, are taken to be of the right type.  A station body that is
    neither an array nor [null] would be stored as it is; it is left
    out. *)
Inductive StationsBody :=
| StationsArray (sts : list Station.t)
| StationsNull.

Inductive PricingBody :=
| PricingArray (rows : list PricingRow)
| PricingNotArray.

Inductive MinimumFareBody :=
| MinimumFareObject (minimum_fare : option float)
| MinimumFareNull.

(** [None] is a rejected request. *)
Record ConfigReads := {
  read_stations : option StationsBody;
  read_pricing : option PricingBody;
  read_minimumFare : option MinimumFareBody
}.

(** The three reads against a backend whose responses have the expected
    shape. *)
Definition wellFormed (be : Backend) : ConfigReads :=
  {| read_stations := option_map StationsArray (api_getStations be);
     read_pricing := option_map PricingArray (api_getAllPricing be);
     read_minimumFare :=
       option_map (fun m => MinimumFareObject (Some m))
                  (api_getMinimumFare be) |}.

(* ===================================================================== *)
(** ** services/configManager.js *)
(* ===================================================================== *)

Module ConfigManager.

(** The fields of the [ConfigManager] instance; [config = None] is
    [this.config === null]. *)
Record t := { config : option Config; startedOffline : bool }.

(** [constructor()] *)
Definition new : t := {| config := None; startedOffline := false |}.

Definition staticConfig : Config :=
  {| stations := transitConfig.stations;
     pricing := transitConfig.pricing;
     minimumFare := Some transitConfig.minimumFare |}.

(** [loadStaticConfig()] *)
Definition loadStaticConfig (cm : t) : t :=
  {| config := Some staticConfig; startedOffline := startedOffline cm |}.

(** [pricing.map(p => ({stationA: p.station_a_id, ...}))] *)
Definition mapRow (p : PricingRow) : FareEntry :=
  {| stationA := station_a_id p; stationB := station_b_id p; fare := price p |}.

(** [initialize()].  [Promise.all] rejects as soon as one of the three
    requests rejects.  Inside the same [try], [pricing.map] throws when the
    fare matrix is not an array, [minFare.minimum_fare] throws when the
    minimum-fare body is [null], and [this.config.stations.length], in the
    log line that follows the assignments, throws when the station list is
    [null].  The [catch] block loads the static snapshot and sets the
    flag, also after the assignments were made.  Nothing else is checked:
    a body without [minimum_fare] leaves [minimumFare] undefined. *)
Definition initialize (reads : ConfigReads) (cm : t) : t :=
  match read_stations reads, read_pricing reads, read_minimumFare reads with
  | Some (StationsArray sts), Some (PricingArray rows),
    Some (MinimumFareObject minFare) =>
      {| config := Some {| stations := sts;
                           pricing := map mapRow rows;
                           minimumFare := minFare |};
         startedOffline := false |}
  | _, _, _ =>
      {| config := config (loadStaticConfig cm); startedOffline := true |}
  end.

(** [ensureConfig()] *)
Definition ensureConfig (cm : t) : t :=
  match config cm with
  | Some _ => cm
  | None => loadStaticConfig cm
  end.

(** [getStations()]: the value returned and the manager afterwards.
    An array is truthy, so [this.config?.stations || ...] is the
    configured list once [ensureConfig] has run. *)
Definition getStations (cm : t) : list Station.t * t :=
  let cm := ensureConfig cm in
  (match config cm with
   | Some c => stations c
   | None => transitConfig.stations
   end, cm).

(** [this.config?.minimumFare || transitConfig.minimumFare || 2.25] *)
Definition getMinimumFare (cm : t) : float * t :=
  let cm := ensureConfig cm in
  (match config cm with
   | Some c =>
       match minimumFare c with
       | Some m => JS.or_else m (JS.or_else transitConfig.minimumFare 2.25)
       | None => JS.or_else transitConfig.minimumFare 2.25
       end
   | None => JS.or_else transitConfig.minimumFare 2.25
   end, cm).

(** The predicate handed to [pricing.find]. *)
Definition matches (a b : Z) (p : FareEntry) : bool :=
  ((stationA p =? a) && (stationB p =? b)) ||
  ((stationA p =? b) && (stationB p =? a)).

(** [getPricing(stationA, stationB)] *)
Definition getPricing (a b : Z) (cm : t) : float * t :=
  let cm := ensureConfig cm in
  let pricing :=
    match config cm with
    | Some c => pricing c
    | None => transitConfig.pricing
    end in
  let found := List.find (matches a b) pricing in
  match found with
  | Some p =>
      if JS.truthy (fare p) then (fare p, cm) else getMinimumFare cm
  | None => getMinimumFare cm
  end.

(** [startedInOfflineMode()] *)
Definition startedInOfflineMode (cm : t) : bool := startedOffline cm.

(** [getStationName(stationId)]: [station?.name || `Station ${stationId}`];
    an empty name is falsy.  The label is [None] where the identifier is
    not a safe integer and its text is not rendered. *)
Definition getStationName (stationId : Z) (cm : t) : option string * t :=
  let '(stations, cm) := getStations cm in
  let station := List.find (fun s => Station.id s =? stationId) stations in
  let fallback :=
    match JS.interpolate stationId with
    | Some digits => Some ("Station " +:+ digits)
    | None => None
    end in
  (match station with
   | Some s =>
       match Station.name s with
       | EmptyString => fallback
       | _ => Some (Station.name s)
       end
   | None => fallback
   end, cm).

End ConfigManager.

(* ===================================================================== *)
(** ** Kiosk state *)
(* ===================================================================== *)

(** The value stored under [card_trip_<uuid>]. *)
Module TripData.
Record t := { station_id : Z; timestamp : string }.
End TripData.

Inductive OpType := CREATE_TRIP | COMPLETE_TRIP | CREATE_CARD | ADD_FUNDS.

(** The [data] object of an operation, per operation type. *)
Inductive OpData :=
| CreateTripData (cardUuid : string) (stationId : Z)
| CompleteTripData (tripId destinationStationId : Z) (finalCost : float)
| CreateCardData (initialBalance : float) (uuid : string)
| AddFundsData (cardId : Z) (amount : float).

(** The object handed to [writeFailedOperation]. *)
Module Operation.
Record t := { type : OpType; data : OpData; timestamp : string }.
End Operation.

(** A recorded failed operation. *)
Module FailedOp.
Record t := {
  id : string;
  timestamp : string;
  kioskId : string;
  operation : Operation.t;
  error : string
}.
End FailedOp.

(** A downloaded [failed_ops_<timestamp>.json] file. *)
Record ExportFile := {
  exportTime : string;
  export_kioskId : string;
  operationCount : nat;
  operations : list FailedOp.t
}.

(** The typed view of [localStorage].  Every reader of
    [failed_operations] parses [getItem(...) || '[]'], so an absent key and
    an empty array are the same list. *)
Record LocalStorage := {
  card_balance : gmap string float;
  card_trip : gmap string TripData.t;
  failed_operations : list FailedOp.t;
  kiosk_id : option string
}.

(** The refs of [fareStore]; the cache key [`${lo}-${hi}`] is the pair
    [(lo, hi)]. *)
Record FareStoreState := {
  fs_minimumFare : option float;
  fareCache : gmap (Z * Z) float
}.

(** [import.meta.env]; an unset or empty variable is [None], and the two
    station variables are given as [parseInt] reads them. *)
Record Env := {
  VITE_TEST_CARD_UUID : option string;
  VITE_ENTRY_STATION_ID : option Z;
  VITE_EXIT_STATION_ID : option Z
}.

(** What the handlers read from the wall clock and the random source. *)
Record Clock := {
  now_iso : string;
  fresh_op_id : string;
  fresh_kiosk_id : string
}.

(** The process-wide singletons and the browser surfaces they write. *)
Record World := {
  localStorage : LocalStorage;
  failedOps : list FailedOp.t;
  downloads : list ExportFile;
  configManager : ConfigManager.t;
  fareStore : FareStoreState;
  pushed : list string
}.

Definition set_localStorage (ls : LocalStorage) (w : World) : World :=
  {| localStorage := ls; failedOps := failedOps w; downloads := downloads w;
     configManager := configManager w; fareStore := fareStore w;
     pushed := pushed w |}.

Definition set_failedOps (ops : list FailedOp.t) (w : World) : World :=
  {| localStorage := localStorage w; failedOps := ops; downloads := downloads w;
     configManager := configManager w; fareStore := fareStore w;
     pushed := pushed w |}.

Definition set_downloads (d : list ExportFile) (w : World) : World :=
  {| localStorage := localStorage w; failedOps := failedOps w; downloads := d;
     configManager := configManager w; fareStore := fareStore w;
     pushed := pushed w |}.

Definition set_configManager (cm : ConfigManager.t) (w : World) : World :=
  {| localStorage := localStorage w; failedOps := failedOps w;
     downloads := downloads w; configManager := cm; fareStore := fareStore w;
     pushed := pushed w |}.

Definition set_fareStore (fs : FareStoreState) (w : World) : World :=
  {| localStorage := localStorage w; failedOps := failedOps w;
     downloads := downloads w; configManager := configManager w;
     fareStore := fs; pushed := pushed w |}.

(** [router.push(path)] *)
Definition router_push (path : string) (w : World) : World :=
  {| localStorage := localStorage w; failedOps := failedOps w;
     downloads := downloads w; configManager := configManager w;
     fareStore := fareStore w; pushed := pushed w ++ [path] |}.

(** A kiosk that has just been switched on with empty browser storage. *)
Definition emptyStorage : LocalStorage :=
  {| card_balance := ∅; card_trip := ∅; failed_operations := [];
     kiosk_id := None |}.

Definition freshWorld : World :=
  {| localStorage := emptyStorage; failedOps := []; downloads := [];
     configManager := ConfigManager.new;
     fareStore := {| fs_minimumFare := None; fareCache := ∅ |};
     pushed := [] |}.

(* ===================================================================== *)
(** ** config/testConfig.js: the local card ledger *)
(* ===================================================================== *)

Module testConfig.

Module CardData.
Record t := { uuid : string; balance : float }.
End CardData.

Definition set_card_balance (m : gmap string float) (ls : LocalStorage)
  : LocalStorage :=
  {| card_balance := m; card_trip := card_trip ls;
     failed_operations := failed_operations ls; kiosk_id := kiosk_id ls |}.

Definition set_card_trip (m : gmap string TripData.t) (ls : LocalStorage)
  : LocalStorage :=
  {| card_balance := card_balance ls; card_trip := m;
     failed_operations := failed_operations ls; kiosk_id := kiosk_id ls |}.

(** [writeCardBalance(uuid, newBalance)] *)
Definition writeCardBalance (uuid : string) (newBalance : float)
    (ls : LocalStorage) : LocalStorage :=
  set_card_balance (<[uuid := newBalance]> (card_balance ls)) ls.

(** [scanCard()]: a card never seen before is seeded with 25.00. *)
Definition scanCard (env : Env) (ls : LocalStorage)
  : option CardData.t * LocalStorage :=
  match VITE_TEST_CARD_UUID env with
  | None => (None, ls)
  | Some uuid =>
      match card_balance ls !! uuid with
      | Some b => (Some {| CardData.uuid := uuid; CardData.balance := b |}, ls)
      | None =>
          (Some {| CardData.uuid := uuid; CardData.balance := 25 |},
           writeCardBalance uuid 25 ls)
      end
  end.

(** [writeCardTrip(uuid, stationId, timestamp)] *)
Definition writeCardTrip (uuid : string) (stationId : Z) (timestamp : string)
    (ls : LocalStorage) : LocalStorage :=
  set_card_trip
    (<[uuid := {| TripData.station_id := stationId;
                  TripData.timestamp := timestamp |}]> (card_trip ls)) ls.

(** [readCardTrip(uuid)] *)
Definition readCardTrip (uuid : string) (ls : LocalStorage)
  : option TripData.t :=
  card_trip ls !! uuid.

(** [clearCardTrip(uuid)] *)
Definition clearCardTrip (uuid : string) (ls : LocalStorage) : LocalStorage :=
  set_card_trip (delete uuid (card_trip ls)) ls.

End testConfig.

(* ===================================================================== *)
(** ** stores/addFareStore.js, purchaseCardStore.js, historyStore.js,
       navigationStore.js *)
(* ===================================================================== *)

Module addFareStore.

Record t := {
  selectedAmount : float;
  scannedCard : option testConfig.CardData.t
}.

(** The initial refs: [ref(0.00)] and [ref(null)]. *)
Definition init : t := {| selectedAmount := 0; scannedCard := None |}.

Definition setAmount (amount : float) (st : t) : t :=
  {| selectedAmount := amount; scannedCard := scannedCard st |}.

Definition incrementAmount (delta : float) (st : t) : t :=
  {| selectedAmount := (selectedAmount st + delta)%float;
     scannedCard := scannedCard st |}.

Definition setScannedCard (card : testConfig.CardData.t) (st : t) : t :=
  {| selectedAmount := selectedAmount st; scannedCard := Some card |}.

Definition reset (st : t) : t := init.

End addFareStore.

Module purchaseCardStore.

Record t := {
  selectedAmount : float;
  createdCard : option testConfig.CardData.t
}.

(** The initial refs: [ref(15.00)] and [ref(null)]. *)
Definition init : t := {| selectedAmount := 15; createdCard := None |}.

Definition setAmount (amount : float) (st : t) : t :=
  {| selectedAmount := amount; createdCard := createdCard st |}.

Definition incrementAmount (delta : float) (st : t) : t :=
  {| selectedAmount := (selectedAmount st + delta)%float;
     createdCard := createdCard st |}.

Definition setCreatedCard (card : testConfig.CardData.t) (st : t) : t :=
  {| selectedAmount := selectedAmount st; createdCard := Some card |}.

Definition reset (st : t) : t := init.

End purchaseCardStore.

Module historyStore.

Record t := { scannedCard : option testConfig.CardData.t }.

Definition init : t := {| scannedCard := None |}.

Definition setScannedCard (cardData : testConfig.CardData.t) (st : t) : t :=
  {| scannedCard := Some cardData |}.

Definition reset (st : t) : t := init.

End historyStore.

Module navigationStore.

(** The [context] ref. *)
Record t := { context : string }.

Definition init : t := {| context := "enter" |}.

(** [setContext(newContext)]: any value other than ['enter'] and ['exit']
    is ignored. *)
Definition setContext (newContext : string) (st : t) : t :=
  if String.eqb newContext "enter" || String.eqb newContext "exit"
  then {| context := newContext |}
  else st.

Definition getContext (st : t) : string := context st.

Definition getReturnPath (st : t) : string :=
  if String.eqb (context st) "exit" then "/scan-to-exit" else "/".

End navigationStore.

(** The kiosk with its view stores: the world of the engine and the four
    store singletons. *)
Record Kiosk := {
  world : World;
  addFare : addFareStore.t;
  purchaseCard : purchaseCardStore.t;
  history : historyStore.t;
  navigation : navigationStore.t
}.

Definition set_world (w : World) (k : Kiosk) : Kiosk :=
  {| world := w; addFare := addFare k; purchaseCard := purchaseCard k;
     history := history k; navigation := navigation k |}.

Definition set_addFare (st : addFareStore.t) (k : Kiosk) : Kiosk :=
  {| world := world k; addFare := st; purchaseCard := purchaseCard k;
     history := history k; navigation := navigation k |}.

Definition set_purchaseCard (st : purchaseCardStore.t) (k : Kiosk) : Kiosk :=
  {| world := world k; addFare := addFare k; purchaseCard := st;
     history := history k; navigation := navigation k |}.

Definition set_history (st : historyStore.t) (k : Kiosk) : Kiosk :=
  {| world := world k; addFare := addFare k; purchaseCard := purchaseCard k;
     history := st; navigation := navigation k |}.

Definition set_navigation (st : navigationStore.t) (k : Kiosk) : Kiosk :=
  {| world := world k; addFare := addFare k; purchaseCard := purchaseCard k;
     history := history k; navigation := st |}.

(** The card endpoints of the raw client, with the conventions of
    [Backend]. *)
Record CardApi := {
  api_createCard : float -> string -> option unit;
  api_addFunds : Z -> float -> option unit
}.

(* ===================================================================== *)
(** ** services/failedOpsWriter.js: the durable failure sink *)
(* ===================================================================== *)

Module FailedOpsWriter.

Definition set_failed_operations (ops : list FailedOp.t) (ls : LocalStorage)
  : LocalStorage :=
  {| card_balance := card_balance ls; card_trip := card_trip ls;
     failed_operations := ops; kiosk_id := kiosk_id ls |}.

Definition set_kiosk_id (k : string) (ls : LocalStorage) : LocalStorage :=
  {| card_balance := card_balance ls; card_trip := card_trip ls;
     failed_operations := failed_operations ls; kiosk_id := Some k |}.

(** [getKioskId()]: read the stored identifier, or generate and store one. *)
Definition getKioskId (clk : Clock) (w : World) : string * World :=
  match kiosk_id (localStorage w) with
  | Some k => (k, w)
  | None =>
      (fresh_kiosk_id clk,
       set_localStorage (set_kiosk_id (fresh_kiosk_id clk) (localStorage w)) w)
  end.

(** [saveToLocalStorage()]: the stored list, then the whole in-memory
    batch, trimmed to the last 100. *)
Definition saveToLocalStorage (w : World) : World :=
  let existing := failed_operations (localStorage w) ++ failedOps w in
  let trimmed := JS.slice_last 100 existing in
  set_localStorage (set_failed_operations trimmed (localStorage w)) w.

(** [exportToFile(operations = null)]: the download is taken to succeed;
    the in-memory batch is cleared only when no argument was given. *)
Definition exportToFile (clk : Clock) (operations : option (list FailedOp.t))
    (w : World) : World :=
  let opsToExport :=
    match operations with
    | Some ops => ops
    | None => failedOps w
    end in
  match opsToExport with
  | [] => w
  | _ =>
      let '(kiosk, w) := getKioskId clk w in
      let file := {| exportTime := now_iso clk;
                     export_kioskId := kiosk;
                     operationCount := length opsToExport;
                     operations := opsToExport |} in
      let w := set_downloads (downloads w ++ [file]) w in
      match operations with
      | Some _ => w
      | None => set_failedOps [] w
      end
  end.

(** [writeFailedOperation(operation)]: the identifier returned and the
    world afterwards. *)
Definition writeFailedOperation (clk : Clock) (operation : Operation.t)
    (w : World) : string * World :=
  let '(kiosk, w) := getKioskId clk w in
  let failedOp := {| FailedOp.id := fresh_op_id clk;
                     FailedOp.timestamp := now_iso clk;
                     FailedOp.kioskId := kiosk;
                     FailedOp.operation := operation;
                     FailedOp.error := "Network unavailable" |} in
  let w := set_failedOps (failedOps w ++ [failedOp]) w in
  let w := saveToLocalStorage w in
  let w := exportToFile clk (Some [failedOp]) w in
  (FailedOp.id failedOp, w).

(** [exportAllFromStorage()]: [false] when nothing is stored. *)
Definition exportAllFromStorage (clk : Clock) (w : World) : bool * World :=
  match failed_operations (localStorage w) with
  | [] => (false, w)
  | allOps => (true, exportToFile clk (Some allOps) w)
  end.

(** [clearStorage()]: removes the stored list; the in-memory batch is not
    touched. *)
Definition clearStorage (w : World) : bool * World :=
  (true, set_localStorage (set_failed_operations [] (localStorage w)) w).

(** [getPendingCount()] *)
Definition getPendingCount (w : World) : nat :=
  length (failed_operations (localStorage w)).

End FailedOpsWriter.

(* ===================================================================== *)
(** ** api/offlineWrapper.js *)
(* ===================================================================== *)

Module offlineApi.

(** [createTrip(cardUuid, stationId)]: the resolved value is not read by
    the scanner, so only the world is returned. *)
Definition createTrip (be : Backend) (clk : Clock) (cardUuid : string)
    (stationId : Z) (w : World) : World :=
  match api_createTrip be cardUuid stationId with
  | Some _ => w
  | None =>
      snd (FailedOpsWriter.writeFailedOperation clk
             {| Operation.type := CREATE_TRIP;
                Operation.data := CreateTripData cardUuid stationId;
                Operation.timestamp := now_iso clk |} w)
  end.

(** [completeTrip(tripId, destinationStationId, finalCost)] *)
Definition completeTrip (be : Backend) (clk : Clock)
    (tripId destinationStationId : Z) (finalCost : float) (w : World) : World :=
  match api_completeTrip be tripId destinationStationId finalCost with
  | Some _ => w
  | None =>
      snd (FailedOpsWriter.writeFailedOperation clk
             {| Operation.type := COMPLETE_TRIP;
                Operation.data :=
                  CompleteTripData tripId destinationStationId finalCost;
                Operation.timestamp := now_iso clk |} w)
  end.

(** [getFareBetweenStations(a, b)]: the [price] of the resolved object. *)
Definition getFareBetweenStations (be : Backend) (a b : Z) (w : World)
  : float * World :=
  match api_getFareBetweenStations be a b with
  | Some p => (p, w)
  | None =>
      let '(p, cm) := ConfigManager.getPricing a b (configManager w) in
      (p, set_configManager cm w)
  end.

(** [getMinimumFare()]: the [minimum_fare] of the resolved object. *)
Definition getMinimumFare (be : Backend) (w : World) : float * World :=
  match api_getMinimumFare be with
  | Some m => (m, w)
  | None =>
      let '(m, cm) := ConfigManager.getMinimumFare (configManager w) in
      (m, set_configManager cm w)
  end.

(** [getCardByUuid(uuid)]: [null] when the request rejects. *)
Definition getCardByUuid (be : Backend) (uuid : string) : option Card :=
  match api_getCardByUuid be uuid with
  | Some r => r
  | None => None
  end.

(** [getActiveTrip(cardId)]: [null] when the request rejects. *)
Definition getActiveTrip (be : Backend) (cardId : Z) : option ActiveTrip :=
  match api_getActiveTrip be cardId with
  | Some r => r
  | None => None
  end.

(** [createCard(initialBalance, uuid)] *)
Definition createCard (cards : CardApi) (clk : Clock) (initialBalance : float)
    (uuid : string) (w : World) : World :=
  match api_createCard cards initialBalance uuid with
  | Some _ => w
  | None =>
      snd (FailedOpsWriter.writeFailedOperation clk
             {| Operation.type := CREATE_CARD;
                Operation.data := CreateCardData initialBalance uuid;
                Operation.timestamp := now_iso clk |} w)
  end.

(** [addFunds(cardId, amount)] *)
Definition addFunds (cards : CardApi) (clk : Clock) (cardId : Z)
    (amount : float) (w : World) : World :=
  match api_addFunds cards cardId amount with
  | Some _ => w
  | None =>
      snd (FailedOpsWriter.writeFailedOperation clk
             {| Operation.type := ADD_FUNDS;
                Operation.data := AddFundsData cardId amount;
                Operation.timestamp := now_iso clk |} w)
  end.

(** [getStations()] *)
Definition getStations (be : Backend) (w : World) : list Station.t * World :=
  match api_getStations be with
  | Some sts => (sts, w)
  | None =>
      let '(sts, cm) := ConfigManager.getStations (configManager w) in
      (sts, set_configManager cm w)
  end.

(** [getAllPricing()]: the fallback reads [configManager.config?.pricing]
    directly, without [ensureConfig]. *)
Definition getAllPricing (be : Backend) (w : World) : list PricingRow :=
  match api_getAllPricing be with
  | Some rows => rows
  | None =>
      map (fun p => {| station_a_id := stationA p;
                       station_b_id := stationB p;
                       price := fare p |})
          match ConfigManager.config (configManager w) with
          | Some c => pricing c
          | None => []
          end
  end.

End offlineApi.

(* ===================================================================== *)
(** ** stores/fareStore.js *)
(* ===================================================================== *)

Module FareStore.

(** The cache key: lower identifier first. *)
Definition cacheKey (a b : Z) : Z * Z :=
  if a <? b then (a, b) else (b, a).

Definition set_fareCache (c : gmap (Z * Z) float) (fs : FareStoreState)
  : FareStoreState :=
  {| fs_minimumFare := fs_minimumFare fs; fareCache := c |}.

(** [initializeFromConfig(configManager)] *)
Definition initializeFromConfig (w : World) : World :=
  let '(m, cm) := ConfigManager.getMinimumFare (configManager w) in
  let pricing :=
    match ConfigManager.config cm with
    | Some c => pricing c
    | None => []
    end in
  let cache :=
    foldl (fun acc p => <[cacheKey (stationA p) (stationB p) := fare p]> acc)
          (fareCache (fareStore w)) pricing in
  set_fareStore {| fs_minimumFare := Some m; fareCache := cache |}
    (set_configManager cm w).

(** [getMinimumFare()] *)
Definition getMinimumFare (w : World) : option float :=
  fs_minimumFare (fareStore w).

(** [fetchFareBetweenStations(a, b)]: [None] is the [null] of the
    [catch] block, which the offline wrapper never lets be reached. *)
Definition fetchFareBetweenStations (be : Backend) (a b : Z) (w : World)
  : option float * World :=
  match fareCache (fareStore w) !! cacheKey a b with
  | Some f => (Some f, w)
  | None =>
      let '(p, w) := offlineApi.getFareBetweenStations be a b w in
      (Some p,
       set_fareStore
         (set_fareCache (<[cacheKey a b := p]> (fareCache (fareStore w)))
                        (fareStore w)) w)
  end.

(** [fetchMinimumFare()]: the stored value when there is one, else the
    value fetched through the offline wrapper, which is then stored. *)
Definition fetchMinimumFare (be : Backend) (w : World) : option float * World :=
  match fs_minimumFare (fareStore w) with
  | Some m => (Some m, w)
  | None =>
      let '(m, w) := offlineApi.getMinimumFare be w in
      (Some m,
       set_fareStore {| fs_minimumFare := Some m;
                        fareCache := fareCache (fareStore w) |} w)
  end.

(** [getFareBetweenStations(a, b)]: the cached fare, [None] for
    [undefined]. *)
Definition getFareBetweenStations (a b : Z) (w : World) : option float :=
  fareCache (fareStore w) !! cacheKey a b.

(** [preloadAllFares()]: the cache afterwards is also the value returned. *)
Definition preloadAllFares (be : Backend) (w : World) : World :=
  let cache :=
    foldl (fun acc r =>
             <[cacheKey (station_a_id r) (station_b_id r) := price r]> acc)
          (fareCache (fareStore w)) (offlineApi.getAllPricing be w) in
  set_fareStore (set_fareCache cache (fareStore w)) w.

End FareStore.

(* ===================================================================== *)
(** ** services/scannerService.js *)
(* ===================================================================== *)

Module ScannerService.

Import testConfig.

(** The [errorMessage] of a result.  The exit shortfall message is the
    template [Insufficient balance / Fare: $.. / Balance: $.. / Short: $..];
    it is kept as the three texts that [toFixed(2)] puts in the
    template. *)
Inductive Message :=
| Text (s : string)
| InsufficientBalanceFor (fare balance short : option string).

(** The object a handler resolves with; an omitted field is [None] or
    [false]. *)
Record ScanResult := {
  success : bool;
  scannerState : string;
  errorMessage : option Message;
  isInsufficientBalance : bool;
  lastScannedCard : option CardData.t;
  timeout : option Z
}.

Definition ok : ScanResult :=
  {| success := true; scannerState := "success"; errorMessage := None;
     isInsufficientBalance := false; lastScannedCard := None;
     timeout := None |}.

Definition failure (msg : string) : ScanResult :=
  {| success := false; scannerState := "error";
     errorMessage := Some (Text msg); isInsufficientBalance := false;
     lastScannedCard := None; timeout := Some 5000 |}.

Definition insufficient (msg : Message) (cardData : CardData.t) : ScanResult :=
  {| success := false; scannerState := "error"; errorMessage := Some msg;
     isInsufficientBalance := true; lastScannedCard := Some cardData;
     timeout := Some 5000 |}.

(** The promise chain started by a successful exit:
    [getCardByUuid(...).then(card => getActiveTrip(...).then(activeTrip =>
    completeTrip(...)))], each step guarded by [if (card)] and
    [if (activeTrip)]. *)
Definition syncExit (be : Backend) (clk : Clock) (uuid : string)
    (exitStationId : Z) (fare : float) (w : World) : World :=
  match offlineApi.getCardByUuid be uuid with
  | Some card =>
      match offlineApi.getActiveTrip be (card_id card) with
      | Some activeTrip =>
          offlineApi.completeTrip be clk (trip_id activeTrip)
            exitStationId fare w
      | None => w
      end
  | None => w
  end.

(** [handleScanToExit(router, route)]; [exitStationId] is
    [this.exitStationId], set by [handleScan] from the scan context. *)
Definition handleScanToExit (env : Env) (be : Backend) (clk : Clock)
    (exitStationId : option Z) (w : World) : ScanResult * World :=
  let '(cardData, ls) := scanCard env (localStorage w) in
  let w := set_localStorage ls w in
  match cardData with
  | None => (failure "No test card configured", w)
  | Some cardData =>
      match readCardTrip (CardData.uuid cardData) (localStorage w) with
      | None => (ok, router_push "/exit" w)
      | Some tripData =>
          match JS.or_id exitStationId (VITE_EXIT_STATION_ID env) with
          | None => (failure "No exit station ID configured", w)
          | Some exitStationId =>
              if negb (JS.truthyZ exitStationId)
              then (failure "No exit station ID configured", w)
              else
                let '(fare, w) :=
                  FareStore.fetchFareBetweenStations be
                    (TripData.station_id tripData) exitStationId w in
                match fare with
                | None => (failure "Unable to calculate fare", w)
                | Some fare =>
                    if (CardData.balance cardData <? fare)%float
                    then
                      (insufficient
                         (InsufficientBalanceFor
                            (JS.toFixed2 fare)
                            (JS.toFixed2 (CardData.balance cardData))
                            (JS.toFixed2
                               (fare - CardData.balance cardData)%float))
                         cardData, w)
                    else
                      let newBalance :=
                        (CardData.balance cardData - fare)%float in
                      let ls :=
                        writeCardBalance (CardData.uuid cardData) newBalance
                          (localStorage w) in
                      let ls := clearCardTrip (CardData.uuid cardData) ls in
                      let w := set_localStorage ls w in
                      let w :=
                        syncExit be clk (CardData.uuid cardData)
                          exitStationId fare w in
                      (ok, router_push "/exit" w)
                end
          end
      end
  end.

(** [handleDefaultScan(router, route)]: entry. *)
Definition handleDefaultScan (env : Env) (be : Backend) (clk : Clock)
    (entryStationId : option Z) (w : World) : ScanResult * World :=
  let '(cardData, ls) := scanCard env (localStorage w) in
  let w := set_localStorage ls w in
  match cardData with
  | None => (failure "No test card configured", w)
  | Some cardData =>
      match JS.or_id entryStationId (VITE_ENTRY_STATION_ID env) with
      | None => (failure "No entry station ID configured", w)
      | Some entryStationId =>
          if negb (JS.truthyZ entryStationId)
          then (failure "No entry station ID configured", w)
          else
            let minimumFare := FareStore.getMinimumFare w in
            if JS.lt_nullable (CardData.balance cardData) minimumFare
            then (insufficient (Text "Insufficient balance") cardData, w)
            else
              let entryTimestamp := now_iso clk in
              let ls :=
                writeCardTrip (CardData.uuid cardData) entryStationId
                  entryTimestamp (localStorage w) in
              let w := set_localStorage ls w in
              let w :=
                offlineApi.createTrip be clk (CardData.uuid cardData)
                  entryStationId w in
              (ok, router_push "/enter" w)
      end
  end.

(** What [handleScan] reads from its [context] argument. *)
Record ScanContext := {
  routeName : string;
  entryStationId : option Z;
  exitStationId : option Z
}.

Definition onWorld (r : ScanResult * World) (k : Kiosk) : ScanResult * Kiosk :=
  (fst r, set_world (snd r) k).

(** The deferred [setTimeout(() => router.push(path), 500)] is taken to
    have fired. *)
Definition push (path : string) (k : Kiosk) : Kiosk :=
  set_world (router_push path (world k)) k.

(** [handleHistoryScan(router)] *)
Definition handleHistoryScan (env : Env) (k : Kiosk) : ScanResult * Kiosk :=
  let '(cardData, ls) := scanCard env (localStorage (world k)) in
  let k := set_world (set_localStorage ls (world k)) k in
  match cardData with
  | None => (failure "No test card configured", k)
  | Some cardData =>
      let k :=
        set_history
          (historyStore.setScannedCard
             {| CardData.uuid := CardData.uuid cardData;
                CardData.balance := CardData.balance cardData |}
             (history k)) k in
      (ok, push "/history/view" k)
  end.

(** [handleAddFareScan(router)] *)
Definition handleAddFareScan (env : Env) (k : Kiosk) : ScanResult * Kiosk :=
  let '(cardData, ls) := scanCard env (localStorage (world k)) in
  let k := set_world (set_localStorage ls (world k)) k in
  match cardData with
  | None => (failure "No test card configured", k)
  | Some cardData =>
      let k :=
        set_addFare
          (addFareStore.setScannedCard
             {| CardData.uuid := CardData.uuid cardData;
                CardData.balance := CardData.balance cardData |}
             (addFare k)) k in
      (ok, push "/add-fare/select-amount" k)
  end.

(** The promise chain of a top-up:
    [getCardByUuid(uuid).then(card => addFunds(card.id, amount))].  When
    the lookup yields [null], [card.id] throws inside [then] and the outer
    [catch] logs it. *)
Definition syncAddFunds (be : Backend) (cards : CardApi) (clk : Clock)
    (uuid : string) (amount : float) (w : World) : World :=
  match offlineApi.getCardByUuid be uuid with
  | Some card => offlineApi.addFunds cards clk (card_id card) amount w
  | None => w
  end.

(** [handleAddFarePayment(router)] *)
Definition handleAddFarePayment (be : Backend) (cards : CardApi) (clk : Clock)
    (k : Kiosk) : ScanResult * Kiosk :=
  match addFareStore.scannedCard (addFare k) with
  | None => (failure "No card selected", k)
  | Some scanned =>
      match CardData.uuid scanned with
      | EmptyString => (failure "No card selected", k)
      | cardUuid =>
          let currentBalance := CardData.balance scanned in
          let amountToAdd := addFareStore.selectedAmount (addFare k) in
          let newBalance := (currentBalance + amountToAdd)%float in
          let w :=
            set_localStorage
              (writeCardBalance cardUuid newBalance (localStorage (world k)))
              (world k) in
          let k := set_world w k in
          let k :=
            set_addFare
              (addFareStore.setScannedCard
                 {| CardData.uuid := cardUuid; CardData.balance := newBalance |}
                 (addFare k)) k in
          let k :=
            set_world (syncAddFunds be cards clk cardUuid amountToAdd (world k))
              k in
          (ok, push "/add-fare/complete" k)
      end
  end.

(** [handleAddFareComplete(router)] *)
Definition handleAddFareComplete (k : Kiosk) : ScanResult * Kiosk :=
  let k := set_addFare (addFareStore.reset (addFare k)) k in
  (ok, push "/" k).

(** [handlePurchaseCardPayment(router)]; [newCardUuid] is the value of
    the template [card-<Date.now()>-<random>] at the call. *)
Definition handlePurchaseCardPayment (cards : CardApi) (clk : Clock)
    (newCardUuid : string) (k : Kiosk) : ScanResult * Kiosk :=
  let initialBalance := purchaseCardStore.selectedAmount (purchaseCard k) in
  let w :=
    set_localStorage
      (writeCardBalance newCardUuid initialBalance (localStorage (world k)))
      (world k) in
  let k := set_world w k in
  let k :=
    set_purchaseCard
      (purchaseCardStore.setCreatedCard
         {| CardData.uuid := newCardUuid; CardData.balance := initialBalance |}
         (purchaseCard k)) k in
  let k :=
    set_world
      (offlineApi.createCard cards clk initialBalance newCardUuid (world k)) k in
  (ok, push "/purchase-card/dispensing" k).

(** [handlePurchaseCardDispensing(router)] *)
Definition handlePurchaseCardDispensing (k : Kiosk) : ScanResult * Kiosk :=
  let k := set_purchaseCard (purchaseCardStore.reset (purchaseCard k)) k in
  (ok, push "/" k).

(** [handleScan(context)]: the route decides the handler; every route
    without a case of its own is an entry scan. *)
Definition handleScan (env : Env) (be : Backend) (cards : CardApi)
    (clk : Clock) (newCardUuid : string) (ctx : ScanContext) (k : Kiosk)
  : ScanResult * Kiosk :=
  let route := routeName ctx in
  if String.eqb route "history" then handleHistoryScan env k
  else if String.eqb route "add-fare" then handleAddFareScan env k
  else if String.eqb route "add-fare-payment"
  then handleAddFarePayment be cards clk k
  else if String.eqb route "add-fare-complete" then handleAddFareComplete k
  else if String.eqb route "purchase-card-payment"
  then handlePurchaseCardPayment cards clk newCardUuid k
  else if String.eqb route "purchase-card-dispensing"
  then handlePurchaseCardDispensing k
  else if String.eqb route "scan-to-exit"
  then onWorld (handleScanToExit env be clk (exitStationId ctx) (world k)) k
  else onWorld (handleDefaultScan env be clk (entryStationId ctx) (world k)) k.

End ScannerService.

(* ===================================================================== *)
(** ** Views of the state used by the statements *)
(* ===================================================================== *)

(** The [CardState] of a card identifier as the ledger reports it: the
    balance [scanCard] would return (25.00 for a card never seen) and the
    active trip, if any. *)
Record CardState := {
  cs_balance : float;
  cs_activeTrip : option TripData.t
}.

Definition cardState (uuid : string) (w : World) : CardState :=
  {| cs_balance := default 25%float (card_balance (localStorage w) !! uuid);
     cs_activeTrip := card_trip (localStorage w) !! uuid |}.

(** The trip state of a card. *)
Inductive TripState := IDLE | ACTIVE.

Definition tripState (uuid : string) (w : World) : TripState :=
  match card_trip (localStorage w) !! uuid with
  | Some _ => ACTIVE
  | None => IDLE
  end.

(** The persisted backlog of the failure sink. *)
Definition backlog (w : World) : list FailedOp.t :=
  failed_operations (localStorage w).

(** The table [getPricing] searches: the configured one, or the static one
    when no configuration has been loaded yet. *)
Definition effectivePricing (cm : ConfigManager.t) : list FareEntry :=
  match ConfigManager.config (ConfigManager.ensureConfig cm) with
  | Some c => pricing c
  | None => transitConfig.pricing
  end.

(* ===================================================================== *)
(** ** Scenarios *)
(* ===================================================================== *)

(** A backend whose three configuration reads resolve with the given data
    and whose other requests reject. *)
Definition configBackend (sts : list Station.t) (rows : list PricingRow)
    (minFare : float) : Backend :=
  {| api_getStations := Some sts;
     api_getAllPricing := Some rows;
     api_getMinimumFare := Some minFare;
     api_getFareBetweenStations := fun _ _ => None;
     api_createTrip := fun _ _ => None;
     api_getCardByUuid := fun _ => None;
     api_getActiveTrip := fun _ => None;
     api_completeTrip := fun _ _ _ => None |}.

(** Stations and minimum fare resolve, the fare matrix request rejects. *)
Definition pricingDown : Backend :=
  {| api_getStations := Some transitConfig.stations;
     api_getAllPricing := None;
     api_getMinimumFare := Some 2.5%float;
     api_getFareBetweenStations := fun _ _ => None;
     api_createTrip := fun _ _ => None;
     api_getCardByUuid := fun _ => None;
     api_getActiveTrip := fun _ => None;
     api_completeTrip := fun _ _ _ => None |}.

(** The three reads resolve; the minimum-fare body is an object without
    [minimum_fare], for instance [{}], and the fare matrix prices the
    pair (1, 2) at 9.75. *)
Definition minimumFareMissing : ConfigReads :=
  {| read_stations := Some (StationsArray transitConfig.stations);
     read_pricing :=
       Some (PricingArray
               [ {| station_a_id := 1; station_b_id := 2; price := 9.75 |} ]);
     read_minimumFare := Some (MinimumFareObject None) |}.

(** The three reads resolve; the fare matrix body is not an array. *)
Definition pricingNotArray : ConfigReads :=
  {| read_stations := Some (StationsArray transitConfig.stations);
     read_pricing := Some PricingNotArray;
     read_minimumFare := Some (MinimumFareObject (Some 2.5%float)) |}.

(** A fare matrix with a free transfer between stations 1 and 2. *)
Definition freeTransferRows : list PricingRow :=
  [ {| station_a_id := 1; station_b_id := 2; price := 0 |};
    {| station_a_id := 1; station_b_id := 3; price := 4.5 |} ].

Definition freeTransferBackend : Backend :=
  configBackend transitConfig.stations freeTransferRows 2.25.

(** Two worlds with the same card ledger. *)
Definition sameCards (w w' : World) : Prop :=
  card_balance (localStorage w') = card_balance (localStorage w) /\
  card_trip (localStorage w') = card_trip (localStorage w).

(** The card and trip lookups resolve, the completion request rejects. *)
Definition completionDown : Backend :=
  {| api_getStations := None;
     api_getAllPricing := None;
     api_getMinimumFare := None;
     api_getFareBetweenStations := fun _ _ => None;
     api_createTrip := fun _ _ => None;
     api_getCardByUuid := fun _ => Some (Some {| card_id := 1 |});
     api_getActiveTrip := fun _ => Some (Some {| trip_id := 7 |});
     api_completeTrip := fun _ _ _ => None |}.

(** The development test card of [seeds/dev/001_test_card.sql]. *)
Definition testCard : string := "12345678-1234-1234-1234-123456789abc".

Definition cardEnv : Env :=
  {| VITE_TEST_CARD_UUID := Some testCard;
     VITE_ENTRY_STATION_ID := Some 1;
     VITE_EXIT_STATION_ID := Some 2 |}.

Definition clk1 : Clock :=
  {| now_iso := "2025-09-29T08:00:00.000Z";
     fresh_op_id := "failed_1759132800000_k3j9x0q2a";
     fresh_kiosk_id := "kiosk_1759132800000_p0o9i8u7y" |}.

Definition clk2 : Clock :=
  {| now_iso := "2025-09-29T08:25:00.000Z";
     fresh_op_id := "failed_1759134300000_z8h2m4c6v";
     fresh_kiosk_id := "kiosk_1759134300000_b5n6m7q1w" |}.

Definition opCreateTrip : Operation.t :=
  {| Operation.type := CREATE_TRIP;
     Operation.data := CreateTripData testCard 1;
     Operation.timestamp := "2025-09-29T08:00:00.000Z" |}.

Definition opAddFunds : Operation.t :=
  {| Operation.type := ADD_FUNDS;
     Operation.data := AddFundsData 1 20;
     Operation.timestamp := "2025-09-29T08:25:00.000Z" |}.

(** [record()] called once per element of [calls], in order. *)
Fixpoint recordAll (calls : list (Clock * Operation.t)) (w : World) : World :=
  match calls with
  | [] => w
  | (clk, op) :: rest =>
      recordAll rest (snd (FailedOpsWriter.writeFailedOperation clk op w))
  end.

(** The triangular number [1 + 2 + ... + k]. *)
Fixpoint triangle (k : nat) : nat :=
  match k with
  | O => O
  | S k' => (S k' + triangle k')%nat
  end.

(** The kiosk after [App.vue] has mounted against the backend [be]:
    [configManager.initialize()], then [fareStore.initializeFromConfig]. *)
Definition booted (be : Backend) : World :=
  FareStore.initializeFromConfig
    (set_configManager
       (ConfigManager.initialize (wellFormed be) ConfigManager.new)
       freshWorld).

Definition bootedOffline : World := booted unreachable.

(** A reachable backend whose fare matrix prices the pair (1, 2) at
    [p]. *)
Definition tariff (p : float) : Backend :=
  {| api_getStations := Some transitConfig.stations;
     api_getAllPricing :=
       Some [ {| station_a_id := 1; station_b_id := 2; price := p |} ];
     api_getMinimumFare := Some 2.25%float;
     api_getFareBetweenStations := fun _ _ => Some p;
     api_createTrip := fun _ _ => Some tt;
     api_getCardByUuid := fun _ => Some (Some {| card_id := 1 |});
     api_getActiveTrip := fun _ => Some (Some {| trip_id := 7 |});
     api_completeTrip := fun _ _ _ => Some tt |}.

(** The world [w] with a ledger that holds one card with the given balance
    and trip. *)
Definition withCard (uuid : string) (b : float) (trip : option TripData.t)
    (w : World) : World :=
  set_localStorage
    {| card_balance := {[ uuid := b ]};
       card_trip := match trip with
                    | Some t => {[ uuid := t ]}
                    | None => ∅
                    end;
       failed_operations := [];
       kiosk_id := None |}
    w.

Definition tripFrom (stationId : Z) : TripData.t :=
  {| TripData.station_id := stationId;
     TripData.timestamp := "2025-09-29T08:00:00.000Z" |}.

(** The test card has entered at station 1 while the backend was
    unreachable. *)
Definition entered : World :=
  snd (ScannerService.handleDefaultScan cardEnv unreachable clk1 (Some 1)
         bootedOffline).

(** The operations of a given type in a backlog. *)
Definition ofType (ty : OpType) (ops : list FailedOp.t) : list FailedOp.t :=
  List.filter
    (fun f => match Operation.type (FailedOp.operation f), ty with
              | CREATE_TRIP, CREATE_TRIP | COMPLETE_TRIP, COMPLETE_TRIP
              | CREATE_CARD, CREATE_CARD | ADD_FUNDS, ADD_FUNDS => true
              | _, _ => false
              end) ops.

(* ===================================================================== *)
(** ** views/AddFareSelectAmountView.vue and
       views/PurchaseCardSelectAmountView.vue: the amount buttons *)
(* ===================================================================== *)

(** The four amount buttons of both views. *)
Inductive AmountButton := Minus5 | Plus5 | Minus20 | Plus20.

Module AddFareSelectAmountView.

Definition MIN_AMOUNT : float := 0.
Definition MAX_AMOUNT : float := 200.

Definition handleDecrement (st : addFareStore.t) : addFareStore.t :=
  let newAmount := (addFareStore.selectedAmount st - 5)%float in
  if (MIN_AMOUNT <=? newAmount)%float
  then addFareStore.incrementAmount (-5) st
  else st.

Definition handleIncrement (st : addFareStore.t) : addFareStore.t :=
  let newAmount := (addFareStore.selectedAmount st + 5)%float in
  if (newAmount <=? MAX_AMOUNT)%float
  then addFareStore.incrementAmount 5 st
  else st.

Definition handleDecrement20 (st : addFareStore.t) : addFareStore.t :=
  let newAmount := (addFareStore.selectedAmount st - 20)%float in
  if (MIN_AMOUNT <=? newAmount)%float
  then addFareStore.incrementAmount (-20) st
  else st.

Definition handleIncrement20 (st : addFareStore.t) : addFareStore.t :=
  let newAmount := (addFareStore.selectedAmount st + 20)%float in
  if (newAmount <=? MAX_AMOUNT)%float
  then addFareStore.incrementAmount 20 st
  else st.

(** [isContinueDisabled] *)
Definition isContinueDisabled (st : addFareStore.t) : bool :=
  (addFareStore.selectedAmount st <=? 0)%float.

(** The click handler of each button. *)
Definition press (b : AmountButton) (st : addFareStore.t) : addFareStore.t :=
  match b with
  | Minus5 => handleDecrement st
  | Plus5 => handleIncrement st
  | Minus20 => handleDecrement20 st
  | Plus20 => handleIncrement20 st
  end.

(** [handleCancel()] *)
Definition handleCancel (k : Kiosk) : Kiosk :=
  let k := set_addFare (addFareStore.reset (addFare k)) k in
  ScannerService.push (navigationStore.getReturnPath (navigation k)) k.

End AddFareSelectAmountView.

Module PurchaseCardSelectAmountView.

Definition MIN_AMOUNT : float := 0.
Definition MAX_AMOUNT : float := 200.

Definition handleDecrement (st : purchaseCardStore.t) : purchaseCardStore.t :=
  let newAmount := (purchaseCardStore.selectedAmount st - 5)%float in
  if (MIN_AMOUNT <=? newAmount)%float
  then purchaseCardStore.incrementAmount (-5) st
  else st.

Definition handleIncrement (st : purchaseCardStore.t) : purchaseCardStore.t :=
  let newAmount := (purchaseCardStore.selectedAmount st + 5)%float in
  if (newAmount <=? MAX_AMOUNT)%float
  then purchaseCardStore.incrementAmount 5 st
  else st.

Definition handleDecrement20 (st : purchaseCardStore.t) : purchaseCardStore.t :=
  let newAmount := (purchaseCardStore.selectedAmount st - 20)%float in
  if (MIN_AMOUNT <=? newAmount)%float
  then purchaseCardStore.incrementAmount (-20) st
  else st.

Definition handleIncrement20 (st : purchaseCardStore.t) : purchaseCardStore.t :=
  let newAmount := (purchaseCardStore.selectedAmount st + 20)%float in
  if (newAmount <=? MAX_AMOUNT)%float
  then purchaseCardStore.incrementAmount 20 st
  else st.

Definition press (b : AmountButton) (st : purchaseCardStore.t)
  : purchaseCardStore.t :=
  match b with
  | Minus5 => handleDecrement st
  | Plus5 => handleIncrement st
  | Minus20 => handleDecrement20 st
  | Plus20 => handleIncrement20 st
  end.

End PurchaseCardSelectAmountView.

(** The whole-dollar amount [5 * m]. *)
Definition fiveTimes (m : nat) : float :=
  PrimFloat.of_uint63 (Uint63.of_Z (5 * Z.of_nat m)).

(** [x] is one of 0, 5, 10, ..., 200. *)
Definition onAmountGrid (x : float) : bool :=
  existsb (fun m => PrimFloat.Leibniz.eqb x (fiveTimes m)) (seq 0 41).

(* ===================================================================== *)
(** ** Further scenarios *)
(* ===================================================================== *)

(** The card endpoints all reject / all resolve. *)
Definition cardsDown : CardApi :=
  {| api_createCard := fun _ _ => None; api_addFunds := fun _ _ => None |}.

Definition cardsUp : CardApi :=
  {| api_createCard := fun _ _ => Some tt; api_addFunds := fun _ _ => Some tt |}.

(** The kiosk with its stores as they are when the page has loaded. *)
Definition kioskOf (w : World) : Kiosk :=
  {| world := w;
     addFare := addFareStore.init;
     purchaseCard := purchaseCardStore.init;
     history := historyStore.init;
     navigation := navigationStore.init |}.

(** The sink's observable state: what is stored, what is pending in
    memory, what has been downloaded. *)
Definition sinkState (w : World)
  : list FailedOp.t * list FailedOp.t * list ExportFile :=
  (backlog w, failedOps w, downloads w).

(** The kiosk after the test card, in its trip from station 1, has been
    scanned on the add-fare screen and 20.00 has been selected. *)
Definition topUpKiosk : Kiosk :=
  let k := snd (ScannerService.handleAddFareScan cardEnv (kioskOf entered)) in
  set_addFare (addFareStore.setAmount 20 (addFare k)) k.

(** [setContext] accepts this value. *)
Definition validContext (c : string) : bool :=
  String.eqb c "enter" || String.eqb c "exit".

(** Two worlds that resolve fares alike: same fare store, same
    configuration manager. *)
Definition sameFares (w w' : World) : Prop :=
  fareStore w' = fareStore w /\ configManager w' = configManager w.

(* ===================================================================== *)
(** * Properties *)
(* ===================================================================== *)

(** ** Order of binary64 values *)

Section FloatOrder.

Lemma SFcompare_swap (x y : spec_float) :
  SFcompare x y = option_map CompOpp (SFcompare y x).
Proof.
  destruct x as [ [] | [] | | [] mx ex ], y as [ [] | [] | | [] my ey ];
    simpl; try reflexivity;
    rewrite (Z.compare_antisym ex ey);
    destruct (ex ?= ey)%Z eqn:E; simpl; try reflexivity;
    rewrite (Pos.compare_cont_antisym my mx Eq); simpl;
    now rewrite ?CompOpp_involutive.
Qed.

(** [fare <= balance] rules out [balance < fare] (and both are false on
    [NaN]). *)
Lemma leb_ltb_false (x y : float) :
  (y <=? x)%float = true -> (x <? y)%float = false.
Proof.
  rewrite leb_spec, ltb_spec. unfold SFleb, SFltb.
  rewrite (SFcompare_swap (Prim2SF x) (Prim2SF y)).
  destruct (SFcompare (Prim2SF y) (Prim2SF x)) as [ [] | ];
    simpl; congruence.
Qed.

End FloatOrder.

(** ** Config provider and fare resolver *)

Section FareResolver.

Import ConfigManager.

Lemma matches_sym (a b : Z) (p : FareEntry) : matches a b p = matches b a p.
Proof. unfold matches. apply orb_comm. Qed.

Lemma find_matches_sym (a b : Z) (l : list FareEntry) :
  List.find (matches a b) l = List.find (matches b a) l.
Proof.
  induction l as [ | p l IH ]; simpl; [ reflexivity | ].
  rewrite (matches_sym a b p), IH. reflexivity.
Qed.

Lemma ensureConfig_idem (cm : t) :
  ensureConfig (ensureConfig cm) = ensureConfig cm.
Proof. destruct cm as [[c | ] off]; reflexivity. Qed.

Lemma getPricing_found (cm : t) (a b : Z) (p : FareEntry) :
  List.find (matches a b) (effectivePricing cm) = Some p ->
  JS.truthy (fare p) = true ->
  fst (getPricing a b cm) = fare p.
Proof.
  unfold getPricing, effectivePricing. intros -> ->. reflexivity.
Qed.

Lemma getPricing_absent (cm : t) (a b : Z) :
  List.find (matches a b) (effectivePricing cm) = None ->
  fst (getPricing a b cm) = fst (getMinimumFare cm).
Proof.
  unfold getPricing, effectivePricing. intros ->.
  unfold getMinimumFare. rewrite ensureConfig_idem. reflexivity.
Qed.

Lemma find_matches_some (a b : Z) (l : list FareEntry) (p : FareEntry) :
  List.find (matches a b) l = Some p ->
  In p l /\
  ((stationA p = a /\ stationB p = b) \/ (stationA p = b /\ stationB p = a)).
Proof.
  intros H. apply List.find_some in H as [Hin Hm]. split; [ exact Hin | ].
  unfold matches in Hm.
  apply orb_prop in Hm as [Hm | Hm];
    apply andb_prop in Hm as [H1 H2];
    apply Z.eqb_eq in H1, H2; auto.
Qed.

Lemma find_matches_none (a b : Z) (l : list FareEntry) :
  List.find (matches a b) l = None <->
  (forall p, In p l ->
     ~ ((stationA p = a /\ stationB p = b) \/
        (stationA p = b /\ stationB p = a))).
Proof.
  split.
  - intros H p Hin Hp.
    pose proof (List.find_none _ _ H p Hin) as Hm.
    unfold matches in Hm.
    destruct Hp as [[<- <-] | [<- <-]];
      rewrite !Z.eqb_refl in Hm; simpl in Hm;
      rewrite ?orb_true_r in Hm; discriminate.
  - intros H. destruct (List.find (matches a b) l) as [p | ] eqn:E;
      [ | reflexivity ].
    apply find_matches_some in E as [Hin Hp]. destruct (H p Hin Hp).
Qed.

End FareResolver.

Section ConfigProvider.

Import ConfigManager.

(** What [getPricing] returns, by cases on [pricing.find]: the fare of the
    first entry matching the unordered pair when that fare is a truthy
    number, and [getMinimumFare()] when no entry matches or when the
    matching entry's fare is falsy ([0] or [NaN]).  There is no error
    path. *)
Lemma getPricing_cases (cm : t) (a b : Z) :
  (forall p, List.find (matches a b) (effectivePricing cm) = Some p ->
             JS.truthy (fare p) = true ->
             fst (getPricing a b cm) = fare p) /\
  (forall p, List.find (matches a b) (effectivePricing cm) = Some p ->
             JS.truthy (fare p) = false ->
             fst (getPricing a b cm) = fst (getMinimumFare cm)) /\
  (List.find (matches a b) (effectivePricing cm) = None ->
   fst (getPricing a b cm) = fst (getMinimumFare cm)).
Proof.
  split; [ | split ].
  - intros p. apply getPricing_found.
  - unfold getPricing, effectivePricing. intros p -> ->.
    unfold getMinimumFare. rewrite ensureConfig_idem. reflexivity.
  - apply getPricing_absent.
Qed.

(** C5: with the fare matrix [{1, 2, 0.00}, {1, 3, 4.50}] and minimum fare
    2.25 loaded from the backend, the pair (1, 2) is present with fare 0,
    yet [getPricing(1, 2)] returns the minimum fare 2.25; the fare store,
    initialised from the same configuration, resolves the pair to 0. *)
Theorem getPricing_zero_fare_entry :
  let cm := initialize (wellFormed freeTransferBackend) new in
  List.find (matches 1 2) (effectivePricing cm)
    = Some {| stationA := 1; stationB := 2; fare := 0 |} /\
  fst (getPricing 1 2 cm) = 2.25%float /\
  fst (getMinimumFare cm) = 2.25%float /\
  fst (FareStore.fetchFareBetweenStations unreachable 1 2
         (FareStore.initializeFromConfig (set_configManager cm freshWorld)))
    = Some 0%float.
Proof. vm_compute. repeat split; reflexivity. Qed.

(** C6: [getPricing] is symmetric in its two station arguments, and with
    the static snapshot loaded, which lists [{1, 2, 3.25}], both
    [getPricing(1, 2)] and [getPricing(2, 1)] return 3.25. *)
Theorem getPricing_symmetric :
  (forall (cm : t) (a b : Z), getPricing a b cm = getPricing b a cm) /\
  (let cm := initialize (wellFormed unreachable) new in
   In {| stationA := 1; stationB := 2; fare := 3.25 |} (effectivePricing cm) /\
   fst (getPricing 1 2 cm) = 3.25%float /\
   fst (getPricing 2 1 cm) = 3.25%float).
Proof.
  split.
  - intros cm a b. unfold getPricing.
    rewrite (find_matches_sym a b). reflexivity.
  - cbv zeta. split; [ left; reflexivity | ].
    split; vm_compute; reflexivity.
Qed.

(** C7, amended: initialization is all-or-nothing over the reads it
    cannot use.  If any of the three backend reads rejects, or resolves
    with a body the code cannot read (a [null] station list, a fare matrix
    that is not an array, a [null] minimum-fare body), the configuration
    is the static snapshot and [startedOffline] is true.  If all three
    resolve with bodies it can read, the configuration is built from them
    as they are and [startedOffline] is false: nothing is validated, and
    a minimum-fare body without [minimum_fare] leaves the minimum fare
    undefined.  After a boot with the backend unreachable
    [getStations()] returns the static station list. *)
Theorem initialize_all_or_nothing (reads : ConfigReads) (cm : t) :
  (read_stations reads = None \/ read_pricing reads = None \/
   read_minimumFare reads = None \/
   read_stations reads = Some StationsNull \/
   read_pricing reads = Some PricingNotArray \/
   read_minimumFare reads = Some MinimumFareNull ->
   config (initialize reads cm) = Some staticConfig /\
   startedOffline (initialize reads cm) = true) /\
  (forall sts rows minFare,
     read_stations reads = Some (StationsArray sts) ->
     read_pricing reads = Some (PricingArray rows) ->
     read_minimumFare reads = Some (MinimumFareObject minFare) ->
     config (initialize reads cm)
       = Some {| stations := sts; pricing := map mapRow rows;
                 minimumFare := minFare |} /\
     startedOffline (initialize reads cm) = false) /\
  (startedOffline (initialize (wellFormed unreachable) cm) = true /\
   fst (getStations (initialize (wellFormed unreachable) cm))
     = transitConfig.stations).
Proof.
  split; [ | split ].
  - unfold initialize.
    intros [H | [H | [H | [H | [H | H]]]]]; rewrite H;
      destruct (read_stations reads) as [ [ ? | ] | ],
               (read_pricing reads) as [ [ ? | ] | ],
               (read_minimumFare reads) as [ [ ? | ] | ];
      try discriminate H; split; reflexivity.
  - intros sts rows minFare Hs Hp Hm. unfold initialize.
    rewrite Hs, Hp, Hm. auto.
  - split; reflexivity.
Qed.

(** C7 at concrete reads: a partial success (only the fare matrix
    request rejects) loads the static snapshot, and so does a fare matrix
    that is not an array; a full success loads the backend's data. *)
Lemma initialize_all_or_nothing_witness :
  (config (initialize (wellFormed pricingDown) new) = Some staticConfig /\
   startedOffline (initialize (wellFormed pricingDown) new) = true) /\
  (config (initialize pricingNotArray new) = Some staticConfig /\
   startedOffline (initialize pricingNotArray new) = true) /\
  (config (initialize (wellFormed freeTransferBackend) new)
     = Some {| stations := transitConfig.stations;
               pricing := map mapRow freeTransferRows;
               minimumFare := Some 2.25%float |} /\
   startedOffline (initialize (wellFormed freeTransferBackend) new) = false).
Proof.
  split; [ | split ].
  - apply (proj1 (initialize_all_or_nothing (wellFormed pricingDown) new)).
    right; left; reflexivity.
  - apply (proj1 (initialize_all_or_nothing pricingNotArray new)).
    do 4 right; left; reflexivity.
  - apply (proj1 (proj2 (initialize_all_or_nothing
                           (wellFormed freeTransferBackend) new)));
      reflexivity.
Defined.

(** C7, as stated, fails: a malformed response is not a failure to
    [initialize].  When the minimum-fare read resolves with [{}] the
    configuration is built from the backend's stations and fare matrix,
    [startedOffline] is false, and the minimum fare is answered from the
    static snapshot: the hybrid the claim rules out. *)
Lemma initialize_accepts_malformed_minimum_fare :
  let cm := initialize minimumFareMissing new in
  read_minimumFare minimumFareMissing = Some (MinimumFareObject None) /\
  startedOffline cm = false /\
  config cm <> Some staticConfig /\
  config cm
    = Some {| stations := transitConfig.stations;
              pricing := [ {| stationA := 1; stationB := 2; fare := 9.75 |} ];
              minimumFare := None |} /\
  fst (getPricing 1 2 cm) = 9.75%float /\
  fst (getMinimumFare cm) = transitConfig.minimumFare.
Proof.
  cbv zeta. split; [ reflexivity | ]. split; [ reflexivity | ].
  split; [ discriminate | ].
  split; [ reflexivity | ]. split; vm_compute; reflexivity.
Qed.

End ConfigProvider.

(** ** Durable failure sink *)

Section FailureSink.

Import FailedOpsWriter.

Lemma slice_last_length {A} (n : nat) (l : list A) :
  length (JS.slice_last n l) = Nat.min n (length l).
Proof. unfold JS.slice_last. rewrite length_drop. lia. Qed.

Lemma slice_last_suffix {A} (n : nat) (l : list A) :
  l = take (length l - n) l ++ JS.slice_last n l.
Proof. unfold JS.slice_last. symmetry. apply take_drop. Qed.

Lemma slice_last_all {A} (n : nat) (l : list A) :
  (length l <= n)%nat -> JS.slice_last n l = l.
Proof.
  intros H. unfold JS.slice_last.
  replace (length l - n)%nat with 0%nat by lia. reflexivity.
Qed.

Lemma sameCards_refl (w : World) : sameCards w w.
Proof. split; reflexivity. Qed.

Lemma sameCards_trans (w1 w2 w3 : World) :
  sameCards w1 w2 -> sameCards w2 w3 -> sameCards w1 w3.
Proof. intros [H1 H2] [H3 H4]. split; congruence. Qed.

Lemma getKioskId_frame (clk : Clock) (w : World) :
  let w' := snd (getKioskId clk w) in
  sameCards w w' /\ backlog w' = backlog w /\ failedOps w' = failedOps w /\
  downloads w' = downloads w.
Proof.
  unfold getKioskId, sameCards, backlog.
  destruct (kiosk_id (localStorage w)); simpl; auto.
Qed.

Lemma exportToFile_frame (clk : Clock) (ops : list FailedOp.t) (w : World) :
  let w' := exportToFile clk (Some ops) w in
  sameCards w w' /\ backlog w' = backlog w /\ failedOps w' = failedOps w.
Proof.
  unfold exportToFile. destruct ops as [ | o ops ].
  - simpl. split; [ apply sameCards_refl | auto ].
  - destruct (getKioskId_frame clk w) as (Hc & Hb & Hf & _).
    destruct (getKioskId clk w) as [k w1]. simpl in *. auto.
Qed.

Lemma saveToLocalStorage_frame (w : World) :
  let w' := saveToLocalStorage w in
  sameCards w w' /\
  backlog w' = JS.slice_last 100 (backlog w ++ failedOps w) /\
  failedOps w' = failedOps w.
Proof. repeat split. Qed.

Lemma set_failedOps_frame (ops : list FailedOp.t) (w : World) :
  let w' := set_failedOps ops w in
  sameCards w w' /\ backlog w' = backlog w /\ failedOps w' = ops.
Proof. repeat split. Qed.

(** One call of [writeFailedOperation]: the operation recorded, the
    in-memory batch and the persisted backlog afterwards. *)
Lemma writeFailedOperation_spec (clk : Clock) (op : Operation.t) (w : World) :
  let w' := snd (writeFailedOperation clk op w) in
  exists failedOp,
    FailedOp.id failedOp = fresh_op_id clk /\
    FailedOp.operation failedOp = op /\
    failedOps w' = failedOps w ++ [failedOp] /\
    backlog w' = JS.slice_last 100 (backlog w ++ failedOps w ++ [failedOp]) /\
    sameCards w w'.
Proof.
  unfold writeFailedOperation.
  destruct (getKioskId_frame clk w) as (Hc & Hb & Hf & _).
  destruct (getKioskId clk w) as [k w1]. simpl in Hc, Hb, Hf.
  cbn zeta. unfold snd.
  match goal with
  | |- context [exportToFile clk (Some [?f]) (saveToLocalStorage ?w2)] =>
      destruct (exportToFile_frame clk [f] (saveToLocalStorage w2))
        as (Hc3 & Hb3 & Hf3);
      destruct (saveToLocalStorage_frame w2) as (Hc2 & Hb2 & Hf2);
      destruct (set_failedOps_frame (failedOps w1 ++ [f]) w1)
        as (Hc1 & Hb1 & Hf1);
      exists f
  end.
  cbn zeta in *.
  assert (Hcards := sameCards_trans _ _ _ Hc
                      (sameCards_trans _ _ _ Hc1
                         (sameCards_trans _ _ _ Hc2 Hc3))).
  revert Hcards. rewrite Hb3, Hf3, Hb2, Hf2, Hb1, Hf1, Hb, Hf. intros Hcards.
  repeat (split; [ reflexivity | ]). exact Hcards.
Qed.

(** C9: after every [writeFailedOperation] the persisted backlog holds at
    most 100 operations, and it is the most recent ones that are kept: the
    backlog is a suffix of the previously stored operations followed by the
    in-memory batch, of length [min 100] of that list; what is dropped is
    dropped at the front. *)
Theorem backlog_capped_oldest_evicted (clk : Clock) (op : Operation.t)
    (w : World) :
  let w' := snd (writeFailedOperation clk op w) in
  (length (backlog w') <= 100)%nat /\
  exists failedOp evicted,
    FailedOp.operation failedOp = op /\
    backlog w ++ failedOps w ++ [failedOp] = evicted ++ backlog w' /\
    length (backlog w')
      = Nat.min 100 (length (backlog w ++ failedOps w ++ [failedOp])).
Proof.
  destruct (writeFailedOperation_spec clk op w) as (f & _ & Hop & _ & Hb & _).
  cbv zeta. rewrite Hb. split.
  - rewrite slice_last_length. lia.
  - exists f, (take (length (backlog w ++ failedOps w ++ [f]) - 100)
                    (backlog w ++ failedOps w ++ [f])).
    split; [ exact Hop | split ].
    + apply slice_last_suffix.
    + apply slice_last_length.
Qed.

End FailureSink.

Section FailureSinkCounting.

Import FailedOpsWriter.

(** The in-memory batch is never cleared by [writeFailedOperation], so
    each call persists the whole batch again. *)
Lemma writeFailedOperation_lengths (clk : Clock) (op : Operation.t)
    (w : World) :
  let w' := snd (writeFailedOperation clk op w) in
  length (failedOps w') = S (length (failedOps w)) /\
  length (backlog w')
    = Nat.min 100 (length (backlog w) + S (length (failedOps w))).
Proof.
  destruct (writeFailedOperation_spec clk op w) as (f & _ & _ & Hf & Hb & _).
  cbv zeta. rewrite Hf, Hb, slice_last_length, !length_app.
  simpl length. split; lia.
Qed.

Lemma recordAll_lengths (calls : list (Clock * Operation.t)) (w : World) :
  (length (backlog w) <= 100)%nat ->
  length (failedOps (recordAll calls w))
    = (length (failedOps w) + length calls)%nat /\
  length (backlog (recordAll calls w))
    = Nat.min 100 (length (backlog w)
                   + length calls * length (failedOps w)
                   + triangle (length calls)).
Proof.
  revert w. induction calls as [ | [clk op] rest IH ]; intros w Hcap.
  - simpl recordAll. simpl length. simpl triangle. lia.
  - destruct (writeFailedOperation_lengths clk op w) as [Hm Hb].
    cbv zeta in Hm, Hb. simpl recordAll.
    destruct (IH (snd (writeFailedOperation clk op w))) as [IHm IHb];
      [ lia | ].
    rewrite IHm, IHb, Hm, Hb. simpl length. simpl triangle.
    rewrite Nat.mul_succ_r, Nat.mul_succ_l. split; lia.
Qed.

(** After [k] calls on a kiosk with no stored and no pending operation the
    backlog holds [min 100 (1 + 2 + ... + k)] entries, not [k]. *)
Lemma recordAll_fresh (calls : list (Clock * Operation.t)) :
  length (backlog (recordAll calls freshWorld))
    = Nat.min 100 (triangle (length calls)).
Proof.
  destruct (recordAll_lengths calls freshWorld) as [_ H];
    [ simpl; lia | ].
  rewrite H.
  change (backlog freshWorld) with (@nil FailedOp.t).
  change (failedOps freshWorld) with (@nil FailedOp.t).
  simpl length. f_equal. lia.
Qed.

(** C10: two calls of [writeFailedOperation] on a kiosk with an empty
    backlog leave three entries in the persisted backlog, the first
    operation appearing twice. *)
Theorem two_records_three_entries :
  let w1 := snd (writeFailedOperation clk1 opCreateTrip freshWorld) in
  let w2 := snd (writeFailedOperation clk2 opAddFunds w1) in
  exists f1 f2,
    FailedOp.operation f1 = opCreateTrip /\
    FailedOp.operation f2 = opAddFunds /\
    FailedOp.id f1 = fresh_op_id clk1 /\
    FailedOp.id f2 = fresh_op_id clk2 /\
    backlog w1 = [f1] /\
    backlog w2 = [f1; f1; f2] /\
    getPendingCount w2 = 3%nat.
Proof.
  cbv zeta. eexists _, _. vm_compute. repeat split; reflexivity.
Qed.

End FailureSinkCounting.

(** ** Trip lifecycle *)

Section TripLifecycle.

Import testConfig ScannerService.

Variables (env : Env) (be : Backend) (clk : Clock).

Lemma cardState_sameCards (u : string) (w w' : World) :
  sameCards w w' -> cardState u w' = cardState u w.
Proof. intros [Hb Ht]. unfold cardState. rewrite Hb, Ht. reflexivity. Qed.

Lemma router_push_frame (path : string) (w : World) :
  sameCards w (router_push path w) /\
  backlog (router_push path w) = backlog w /\
  failedOps (router_push path w) = failedOps w.
Proof. repeat split. Qed.

(** The offline wrappers of the write requests leave the ledger alone. *)
Lemma createTrip_frame (u : string) (sid : Z) (w : World) :
  sameCards w (offlineApi.createTrip be clk u sid w).
Proof.
  unfold offlineApi.createTrip. destruct (api_createTrip be u sid).
  - apply sameCards_refl.
  - match goal with
    | |- context [FailedOpsWriter.writeFailedOperation clk ?op w] =>
        destruct (writeFailedOperation_spec clk op w) as (_ & _ & _ & _ & _ & H)
    end.
    exact H.
Qed.

Lemma completeTrip_frame (tid dest : Z) (cost : float) (w : World) :
  sameCards w (offlineApi.completeTrip be clk tid dest cost w).
Proof.
  unfold offlineApi.completeTrip. destruct (api_completeTrip be tid dest cost).
  - apply sameCards_refl.
  - match goal with
    | |- context [FailedOpsWriter.writeFailedOperation clk ?op w] =>
        destruct (writeFailedOperation_spec clk op w) as (_ & _ & _ & _ & _ & H)
    end.
    exact H.
Qed.

Lemma syncExit_frame (u : string) (dest : Z) (cost : float) (w : World) :
  sameCards w (syncExit be clk u dest cost w).
Proof.
  unfold syncExit.
  destruct (offlineApi.getCardByUuid be u) as [card | ];
    [ | apply sameCards_refl ].
  destruct (offlineApi.getActiveTrip be (card_id card)) as [t | ];
    [ | apply sameCards_refl ].
  apply completeTrip_frame.
Qed.

(** The fare lookup neither reads nor writes [localStorage]. *)
Lemma fetchFare_set_localStorage (a b : Z) (ls : LocalStorage) (w : World) :
  FareStore.fetchFareBetweenStations be a b (set_localStorage ls w)
  = (fst (FareStore.fetchFareBetweenStations be a b w),
     set_localStorage ls
       (snd (FareStore.fetchFareBetweenStations be a b w))).
Proof.
  unfold FareStore.fetchFareBetweenStations,
    offlineApi.getFareBetweenStations. simpl.
  destruct (fareCache (fareStore w) !! FareStore.cacheKey a b);
    [ reflexivity | ].
  destruct (api_getFareBetweenStations be a b); [ reflexivity | ].
  destruct (ConfigManager.getPricing a b (configManager w)); reflexivity.
Qed.

Lemma fetchFare_localStorage (a b : Z) (w : World) :
  localStorage (snd (FareStore.fetchFareBetweenStations be a b w))
  = localStorage w.
Proof.
  unfold FareStore.fetchFareBetweenStations,
    offlineApi.getFareBetweenStations.
  destruct (fareCache (fareStore w) !! FareStore.cacheKey a b);
    [ reflexivity | ].
  destruct (api_getFareBetweenStations be a b); [ reflexivity | ].
  destruct (ConfigManager.getPricing a b (configManager w)); reflexivity.
Qed.

(** Every pair resolves to a fare: the [null] branch is never taken. *)
Lemma fetchFare_total (a b : Z) (w : World) :
  exists f, fst (FareStore.fetchFareBetweenStations be a b w) = Some f.
Proof.
  unfold FareStore.fetchFareBetweenStations.
  destruct (fareCache (fareStore w) !! FareStore.cacheKey a b);
    [ eauto | ].
  destruct (offlineApi.getFareBetweenStations be a b w). eauto.
Qed.

(** [scanCard] reports the ledger's view of the card and changes no
    card's view. *)
Lemma scanCard_spec (u : string) (ls : LocalStorage) :
  VITE_TEST_CARD_UUID env = Some u ->
  exists ls',
    scanCard env ls
    = (Some {| CardData.uuid := u;
               CardData.balance := default 25%float (card_balance ls !! u) |},
       ls') /\
    card_trip ls' = card_trip ls /\
    failed_operations ls' = failed_operations ls /\
    kiosk_id ls' = kiosk_id ls /\
    card_balance ls' !! u
      = Some (default 25%float (card_balance ls !! u)) /\
    (forall v, default 25%float (card_balance ls' !! v)
               = default 25%float (card_balance ls !! v)).
Proof.
  intros Hu. unfold scanCard. rewrite Hu.
  destruct (card_balance ls !! u) as [b | ] eqn:E.
  - exists ls. rewrite E. simpl. auto 10.
  - eexists. split; [ reflexivity | ]. simpl.
    repeat (split; [ reflexivity | ]).
    split; [ apply lookup_insert_eq | ].
    intros v. destruct (decide (u = v)) as [<- | Hne].
    + rewrite lookup_insert_eq, E. reflexivity.
    + rewrite lookup_insert_ne by exact Hne. reflexivity.
Qed.

Lemma truthyZ_nonzero (n : Z) : n <> 0 -> JS.truthyZ n = true.
Proof. intros H. unfold JS.truthyZ. apply Z.eqb_neq in H. now rewrite H. Qed.

(** The exit handler on a card with an active trip, once the exit station
    and the fare are known: the rest is the balance check. *)
Lemma handleScanToExit_with_trip
    (exitStationId : option Z) (w : World) (u : string) (trip : TripData.t)
    (dest : Z) (f : float) :
  VITE_TEST_CARD_UUID env = Some u ->
  cs_activeTrip (cardState u w) = Some trip ->
  JS.or_id exitStationId (VITE_EXIT_STATION_ID env) = Some dest ->
  dest <> 0 ->
  fst (FareStore.fetchFareBetweenStations be (TripData.station_id trip) dest w)
    = Some f ->
  let b := cs_balance (cardState u w) in
  let w1 :=
    snd (FareStore.fetchFareBetweenStations be
           (TripData.station_id trip) dest w) in
  exists ls',
    card_trip ls' = card_trip (localStorage w) /\
    failed_operations ls' = failed_operations (localStorage w) /\
    (forall v, default 25%float (card_balance ls' !! v)
               = default 25%float (card_balance (localStorage w) !! v)) /\
    handleScanToExit env be clk exitStationId w
    = if (b <? f)%float
      then (insufficient
              (InsufficientBalanceFor (JS.toFixed2 f) (JS.toFixed2 b)
                 (JS.toFixed2 (f - b)%float))
              {| CardData.uuid := u; CardData.balance := b |},
            set_localStorage ls' w1)
      else (ok,
            router_push "/exit"
              (syncExit be clk u dest f
                 (set_localStorage
                    (clearCardTrip u
                       (writeCardBalance u (b - f)%float ls')) w1))).
Proof.
  intros Hu Htrip Hor Hdest Hfare b w1.
  destruct (scanCard_spec u (localStorage w) Hu)
    as (ls' & Hs & Ht & Hfo & Hk & Hb & Hv).
  exists ls'. repeat (split; [ assumption | ]).
  unfold handleScanToExit. rewrite Hs.
  cbn [CardData.uuid CardData.balance localStorage set_localStorage].
  unfold readCardTrip. rewrite Ht.
  unfold cardState in Htrip. cbn [cs_activeTrip] in Htrip. rewrite Htrip.
  rewrite Hor, (truthyZ_nonzero dest Hdest). cbn [negb].
  rewrite fetchFare_set_localStorage, Hfare.
  reflexivity.
Qed.


(** Every fare of the bundled table is a multiple of 0.25, up to 5.50.
    Between such a fare and any balance below it, in cents, the shortfall
    printed is the decimal difference: binary64 keeps the difference
    within a fraction of a cent, and [toFixed(2)] rounds that away. *)
Lemma shortfall_of_cents_is_decimal (F B : Z) :
  0 <= B < F -> F <= 550 -> F mod 25 = 0 ->
  JS.toFixed2 (JS.cents F - JS.cents B) = Some (JS.decimal2 false (F - B)).
Proof.
  intros HB HF Hq.
  pose (chk := fun F B : Z =>
    match Prim2SF (JS.cents F - JS.cents B) with
    | S754_finite false m e =>
        (JS.hundredths m e =? F - B) &&
        negb (1e21 <=? abs (JS.cents F - JS.cents B))%float
    | _ => false
    end).
  assert (Hall : forallb (fun k => forallb (chk (25 * k)) (seqZ 0 (25 * k)))
                         (seqZ 1 22)
                 = true) by (vm_compute; reflexivity).
  rewrite forallb_forall in Hall.
  pose proof (Z.div_mod F 25 ltac:(lia)) as HF25. rewrite Hq in HF25.
  assert (Hk : In (F / 25) (seqZ 1 22))
    by (apply list_elem_of_In, elem_of_seqZ; lia).
  specialize (Hall (F / 25) Hk).
  replace (25 * (F / 25)) with F in Hall by lia.
  rewrite forallb_forall in Hall.
  assert (HinB : In B (seqZ 0 F))
    by (apply list_elem_of_In, elem_of_seqZ; lia).
  specialize (Hall B HinB). unfold chk in Hall.
  unfold JS.toFixed2.
  destruct (Prim2SF (JS.cents F - JS.cents B)) as [ | | | [ | ] m e ];
    try discriminate Hall.
  apply andb_true_iff in Hall. destruct Hall as [Hn Hbig].
  apply Z.eqb_eq in Hn. apply negb_true_iff in Hbig.
  rewrite Hbig, Hn. reflexivity.
Qed.

Example bundled_fares_are_quarters :
  forallb (fun p => existsb (fun k => (fare p =? JS.cents (25 * k))%float)
                            (seqZ 9 14))
          transitConfig.pricing
  = true.
Proof. vm_compute. reflexivity. Qed.


(** C2 (amended): an exit attempt on a card with an active trip and
    [fare <= balance] succeeds, leaves the card with the binary64
    difference [balance - fare] as its balance and with no active trip;
    no other card's balance or trip changes. *)
Theorem exit_debits_fare_and_clears_trip
    (exitStationId : option Z) (w : World) (u : string) (trip : TripData.t)
    (dest : Z) (f : float) :
  VITE_TEST_CARD_UUID env = Some u ->
  cs_activeTrip (cardState u w) = Some trip ->
  JS.or_id exitStationId (VITE_EXIT_STATION_ID env) = Some dest ->
  dest <> 0 ->
  fst (FareStore.fetchFareBetweenStations be (TripData.station_id trip) dest w)
    = Some f ->
  (f <=? cs_balance (cardState u w))%float = true ->
  let r := fst (handleScanToExit env be clk exitStationId w) in
  let w' := snd (handleScanToExit env be clk exitStationId w) in
  success r = true /\
  cardState u w'
    = {| cs_balance := (cs_balance (cardState u w) - f)%float;
         cs_activeTrip := None |} /\
  (forall v, v <> u -> cardState v w' = cardState v w).
Proof.
  intros Hu Htrip Hor Hdest Hfare Hle.
  destruct (handleScanToExit_with_trip exitStationId w u trip dest f
              Hu Htrip Hor Hdest Hfare) as (ls' & Ht & Hfo & Hv & Heq).
  cbv zeta in *. rewrite Heq, (leb_ltb_false _ _ Hle). cbn [fst snd].
  split; [ reflexivity | ].
  match goal with
  | |- context [router_push ?p (syncExit be clk u dest f ?w2)] =>
      pose proof (sameCards_trans _ _ _ (syncExit_frame u dest f w2)
                    (proj1 (router_push_frame p
                              (syncExit be clk u dest f w2)))) as Hsame
  end.
  split.
  - rewrite (cardState_sameCards u _ _ Hsame). unfold cardState.
    cbn [localStorage set_localStorage clearCardTrip writeCardBalance
         set_card_trip set_card_balance card_balance card_trip].
    rewrite lookup_insert_eq, lookup_delete_eq. reflexivity.
  - intros v Hne. rewrite (cardState_sameCards v _ _ Hsame). unfold cardState.
    cbn [localStorage set_localStorage clearCardTrip writeCardBalance
         set_card_trip set_card_balance card_balance card_trip].
    rewrite lookup_insert_ne, lookup_delete_ne by congruence.
    rewrite Ht, Hv. reflexivity.
Qed.

(** The entry handler once the card and the entry station are known: the
    rest is the minimum-balance check. *)
Lemma handleDefaultScan_with_station
    (entryStationId : option Z) (w : World) (u : string) (sid : Z) :
  VITE_TEST_CARD_UUID env = Some u ->
  JS.or_id entryStationId (VITE_ENTRY_STATION_ID env) = Some sid ->
  sid <> 0 ->
  let b := cs_balance (cardState u w) in
  exists ls',
    card_trip ls' = card_trip (localStorage w) /\
    failed_operations ls' = failed_operations (localStorage w) /\
    (forall v, default 25%float (card_balance ls' !! v)
               = default 25%float (card_balance (localStorage w) !! v)) /\
    handleDefaultScan env be clk entryStationId w
    = if JS.lt_nullable b (FareStore.getMinimumFare w)
      then (insufficient (Text "Insufficient balance")
              {| CardData.uuid := u; CardData.balance := b |},
            set_localStorage ls' w)
      else (ok,
            router_push "/enter"
              (offlineApi.createTrip be clk u sid
                 (set_localStorage
                    (writeCardTrip u sid (now_iso clk) ls') w))).
Proof.
  intros Hu Hor Hsid b.
  destruct (scanCard_spec u (localStorage w) Hu)
    as (ls' & Hs & Ht & Hfo & Hk & Hb & Hv).
  exists ls'. repeat (split; [ assumption | ]).
  unfold handleDefaultScan. rewrite Hs.
  cbn [CardData.uuid CardData.balance localStorage set_localStorage].
  rewrite Hor, (truthyZ_nonzero sid Hsid). cbn [negb].
  reflexivity.
Qed.

(** C4: an entry attempt on a card whose balance is at least the minimum
    fare succeeds, sets the card's active trip to the entry station and
    the entry timestamp, and leaves its balance, and every other card,
    unchanged. *)
Theorem entry_sets_trip_keeps_balance
    (entryStationId : option Z) (w : World) (u : string) (sid : Z)
    (minFare : float) :
  VITE_TEST_CARD_UUID env = Some u ->
  JS.or_id entryStationId (VITE_ENTRY_STATION_ID env) = Some sid ->
  sid <> 0 ->
  FareStore.getMinimumFare w = Some minFare ->
  (minFare <=? cs_balance (cardState u w))%float = true ->
  let r := fst (handleDefaultScan env be clk entryStationId w) in
  let w' := snd (handleDefaultScan env be clk entryStationId w) in
  success r = true /\
  cardState u w'
    = {| cs_balance := cs_balance (cardState u w);
         cs_activeTrip := Some {| TripData.station_id := sid;
                                  TripData.timestamp := now_iso clk |} |} /\
  (forall v, v <> u -> cardState v w' = cardState v w).
Proof.
  intros Hu Hor Hsid Hmin Hle.
  destruct (handleDefaultScan_with_station entryStationId w u sid
              Hu Hor Hsid) as (ls' & Ht & Hfo & Hv & Heq).
  cbv zeta in *. rewrite Heq, Hmin. unfold JS.lt_nullable.
  rewrite (leb_ltb_false _ _ Hle). cbn [fst snd].
  split; [ reflexivity | ].
  match goal with
  | |- context [router_push ?p (offlineApi.createTrip be clk u sid ?w2)] =>
      pose proof (sameCards_trans _ _ _ (createTrip_frame u sid w2)
                    (proj1 (router_push_frame p
                              (offlineApi.createTrip be clk u sid w2))))
        as Hsame
  end.
  split.
  - rewrite (cardState_sameCards u _ _ Hsame). unfold cardState.
    cbn [localStorage set_localStorage writeCardTrip set_card_trip
         card_balance card_trip].
    rewrite lookup_insert_eq, Hv. reflexivity.
  - intros v Hne. rewrite (cardState_sameCards v _ _ Hsame). unfold cardState.
    cbn [localStorage set_localStorage writeCardTrip set_card_trip
         card_balance card_trip].
    rewrite lookup_insert_ne by congruence.
    rewrite Ht, Hv. reflexivity.
Qed.

(** C8 (amended): the transitions of a card's trip state.  An accepted
    entry sets the active trip to the new entry station and timestamp
    whatever the state before (IDLE to ACTIVE, or ACTIVE to ACTIVE with
    the trip replaced: the entry flow makes no check of an existing trip);
    a rejected entry leaves it unchanged; an exit on a card with an active
    trip either completes and clears it (ACTIVE to IDLE) or is rejected
    and leaves it unchanged; an exit on a card without one succeeds as a
    no-fare exit and the card stays IDLE. *)
Theorem trip_transitions (stationId : option Z) (w : World) (u : string) :
  VITE_TEST_CARD_UUID env = Some u ->
  (let r := fst (handleDefaultScan env be clk stationId w) in
   let w' := snd (handleDefaultScan env be clk stationId w) in
   if success r
   then exists sid,
          JS.or_id stationId (VITE_ENTRY_STATION_ID env) = Some sid /\
          cs_activeTrip (cardState u w')
            = Some {| TripData.station_id := sid;
                      TripData.timestamp := now_iso clk |}
   else cs_activeTrip (cardState u w') = cs_activeTrip (cardState u w)) /\
  (let r := fst (handleScanToExit env be clk stationId w) in
   let w' := snd (handleScanToExit env be clk stationId w) in
   match cs_activeTrip (cardState u w) with
   | None => success r = true /\ cs_activeTrip (cardState u w') = None
   | Some t =>
       if success r
       then cs_activeTrip (cardState u w') = None
       else cs_activeTrip (cardState u w') = Some t
   end).
Proof.
  intros Hu. cbv zeta.
  destruct (scanCard_spec u (localStorage w) Hu)
    as (ls' & Hs & Ht & Hfo & Hk & Hb & Hv).
  split.
  - (* entry *)
    destruct (JS.or_id stationId (VITE_ENTRY_STATION_ID env))
      as [sid | ] eqn:Hor.
    + destruct (Z.eq_dec sid 0) as [-> | Hsid].
      * unfold handleDefaultScan. rewrite Hs, Hor. cbn [JS.truthyZ].
        simpl. unfold cardState. simpl. rewrite Ht. reflexivity.
      * destruct (handleDefaultScan_with_station stationId w u sid
                    Hu Hor Hsid) as (ls2 & Ht2 & _ & _ & Heq).
        cbv zeta in Heq. rewrite Heq.
        destruct (JS.lt_nullable _ _); cbn [fst snd success insufficient ok].
        -- unfold cardState.
           cbn [cs_activeTrip localStorage set_localStorage].
           rewrite Ht2. reflexivity.
        -- exists sid. split; [ reflexivity | ].
           match goal with
           | |- context [router_push ?p
                           (offlineApi.createTrip be clk u sid ?w2)] =>
               rewrite (cardState_sameCards u _ _
                          (sameCards_trans _ _ _ (createTrip_frame u sid w2)
                             (proj1 (router_push_frame p
                                (offlineApi.createTrip be clk u sid w2)))))
           end.
           unfold cardState.
           cbn [cs_activeTrip localStorage set_localStorage writeCardTrip
                set_card_trip card_trip].
           apply lookup_insert_eq.
    + unfold handleDefaultScan. rewrite Hs, Hor.
      simpl. unfold cardState. simpl. rewrite Ht. reflexivity.
  - (* exit *)
    destruct (cs_activeTrip (cardState u w)) as [t | ] eqn:Htrip.
    + destruct (JS.or_id stationId (VITE_EXIT_STATION_ID env))
        as [dest | ] eqn:Hor.
      * destruct (Z.eq_dec dest 0) as [-> | Hdest].
        -- unfold handleScanToExit, readCardTrip. rewrite Hs.
           cbn [CardData.uuid localStorage set_localStorage].
           rewrite Ht. unfold cardState in Htrip.
           cbn [cs_activeTrip] in Htrip. rewrite Htrip, Hor.
           simpl. unfold cardState. simpl. rewrite Ht. exact Htrip.
        -- destruct (fetchFare_total (TripData.station_id t) dest w)
             as [f Hfare].
           destruct (handleScanToExit_with_trip stationId w u t dest f
                       Hu Htrip Hor Hdest Hfare) as (ls2 & Ht2 & _ & _ & Heq).
           cbv zeta in Heq.
           destruct ((cs_balance (cardState u w) <? f)%float) eqn:Hlt.
           ++ rewrite Heq. cbn [fst snd success insufficient].
              unfold cardState.
              cbn [cs_activeTrip localStorage set_localStorage].
              rewrite Ht2. exact Htrip.
           ++ rewrite Heq. cbn [fst snd success ok].
              match goal with
              | |- context [router_push ?p (syncExit be clk u dest f ?w2)] =>
                  rewrite (cardState_sameCards u _ _
                             (sameCards_trans _ _ _
                                (syncExit_frame u dest f w2)
                                (proj1 (router_push_frame p
                                   (syncExit be clk u dest f w2)))))
              end.
              unfold cardState.
              cbn [cs_activeTrip localStorage set_localStorage clearCardTrip
                   writeCardBalance set_card_trip set_card_balance card_trip].
              apply lookup_delete_eq.
      * unfold handleScanToExit, readCardTrip. rewrite Hs.
        cbn [CardData.uuid localStorage set_localStorage].
        rewrite Ht. unfold cardState in Htrip.
        cbn [cs_activeTrip] in Htrip. rewrite Htrip, Hor.
        simpl. unfold cardState. simpl. rewrite Ht. exact Htrip.
    + unfold handleScanToExit, readCardTrip. rewrite Hs.
      cbn [CardData.uuid localStorage set_localStorage].
      rewrite Ht. unfold cardState in Htrip.
      cbn [cs_activeTrip] in Htrip. rewrite Htrip.
      simpl. unfold cardState. simpl. rewrite Ht. auto.
Qed.

End TripLifecycle.

(** ** Backend synchronisation of an exit *)

Section ExitSync.

Import ScannerService.

(** With the backend unreachable the card lookup yields [null] and the
    chain stops before [completeTrip] is called. *)
Lemma syncExit_unreachable (clk : Clock) (u : string) (dest : Z) (f : float)
    (w : World) :
  syncExit unreachable clk u dest f w = w.
Proof. reflexivity. Qed.

(** When both lookups resolve and only the completion request rejects,
    the chain records one COMPLETE_TRIP operation carrying the trip
    identifier, the exit station and the fare. *)
Lemma syncExit_completion_rejected (be : Backend) (clk : Clock) (u : string)
    (dest : Z) (f : float) (w : World) (card : Card) (t : ActiveTrip) :
  api_getCardByUuid be u = Some (Some card) ->
  api_getActiveTrip be (card_id card) = Some (Some t) ->
  api_completeTrip be (trip_id t) dest f = None ->
  exists failedOp,
    FailedOp.operation failedOp
      = {| Operation.type := COMPLETE_TRIP;
           Operation.data := CompleteTripData (trip_id t) dest f;
           Operation.timestamp := now_iso clk |} /\
    failedOps (syncExit be clk u dest f w) = failedOps w ++ [failedOp] /\
    backlog (syncExit be clk u dest f w)
      = JS.slice_last 100 (backlog w ++ failedOps w ++ [failedOp]).
Proof.
  intros Hc Ht Hx.
  unfold syncExit, offlineApi.getCardByUuid, offlineApi.getActiveTrip,
    offlineApi.completeTrip.
  rewrite Hc, Ht, Hx.
  match goal with
  | |- context [FailedOpsWriter.writeFailedOperation clk ?op w] =>
      destruct (writeFailedOperation_spec clk op w)
        as (fop & _ & Hop & Hm & Hb & _)
  end.
  exists fop. auto.
Qed.

(** C1: the test card, entered at station 1 with 25.00, exits at station 2
    (fare 3.25) while every backend request rejects.  The exit succeeds
    and the local balance is debited to 21.75, but the sink records
    nothing: backlog, in-memory batch and downloads are as before the
    exit, and none holds a COMPLETE_TRIP operation. *)
Theorem exit_offline_records_no_completion :
  let r := fst (handleScanToExit cardEnv unreachable clk2 (Some 2) entered) in
  let w' := snd (handleScanToExit cardEnv unreachable clk2 (Some 2) entered) in
  cardState testCard entered
    = {| cs_balance := 25; cs_activeTrip := Some (tripFrom 1) |} /\
  fst (FareStore.fetchFareBetweenStations unreachable 1 2 entered)
    = Some 3.25%float /\
  success r = true /\
  cardState testCard w' = {| cs_balance := 21.75; cs_activeTrip := None |} /\
  backlog w' = backlog entered /\
  failedOps w' = failedOps entered /\
  downloads w' = downloads entered /\
  ofType COMPLETE_TRIP (backlog w') = [] /\
  ofType COMPLETE_TRIP (failedOps w') = [].
Proof. vm_compute. repeat split; reflexivity. Qed.

(** The same exit with only the completion request rejecting records the
    operation once, with payload (7, 2, 3.25). *)
Example exit_completion_down_records_one :
  let w' := snd (handleScanToExit cardEnv completionDown clk2 (Some 2)
                   entered) in
  map (fun f => Operation.data (FailedOp.operation f))
      (ofType COMPLETE_TRIP (backlog w'))
    = [ CompleteTripData 7 2 3.25 ].
Proof. vm_compute. reflexivity. Qed.

End ExitSync.

(** ** The engine at concrete inputs *)

Section Scenarios.

Import ScannerService.

(** C2 at the test card: 25.00 at station 1, exit at station 2 for 3.25
    leaves 21.75. *)
Lemma exit_debits_fare_and_clears_trip_witness :
  success (fst (handleScanToExit cardEnv unreachable clk2 (Some 2) entered))
    = true /\
  cardState testCard
    (snd (handleScanToExit cardEnv unreachable clk2 (Some 2) entered))
    = {| cs_balance := (cs_balance (cardState testCard entered) - 3.25)%float;
         cs_activeTrip := None |} /\
  (forall v, v <> testCard ->
     cardState v
       (snd (handleScanToExit cardEnv unreachable clk2 (Some 2) entered))
     = cardState v entered).
Proof.
  apply (exit_debits_fare_and_clears_trip cardEnv unreachable clk2 (Some 2)
           entered testCard (tripFrom 1) 2 3.25%float);
    solve [ vm_compute; reflexivity | discriminate ].
Defined.

Example exit_25_00_minus_3_25 :
  cs_balance
    (cardState testCard
       (snd (handleScanToExit cardEnv unreachable clk2 (Some 2) entered)))
  = JS.cents 2175.
Proof. vm_compute. reflexivity. Qed.

(** C2, as stated, fails: a card holding 21.90 that exits on a 3.10 fare
    is left with 18.799999999999997, which is not the decimal 18.80. *)
Lemma exit_balance_not_decimal_exact :
  let w := withCard testCard (JS.cents 2190) (Some (tripFrom 1))
             (booted (tariff (JS.cents 310))) in
  let r := fst (handleScanToExit cardEnv (tariff (JS.cents 310)) clk2
                  (Some 2) w) in
  let w' := snd (handleScanToExit cardEnv (tariff (JS.cents 310)) clk2
                   (Some 2) w) in
  cardState testCard w
    = {| cs_balance := JS.cents 2190; cs_activeTrip := Some (tripFrom 1) |} /\
  fst (FareStore.fetchFareBetweenStations (tariff (JS.cents 310)) 1 2 w)
    = Some (JS.cents 310) /\
  (JS.cents 310 <=? JS.cents 2190)%float = true /\
  success r = true /\
  (cs_balance (cardState testCard w') =? JS.cents (2190 - 310))%float = false /\
  cs_balance (cardState testCard w') <> JS.cents (2190 - 310).
Proof.
  cbv zeta. repeat (split; [ vm_compute; reflexivity | ]).
  intros H.
  apply (f_equal (fun x => (x =? JS.cents (2190 - 310))%float)) in H.
  vm_compute in H. discriminate H.
Qed.



(** At cent amounts the rounding hides what binary64 adds: 3.10 - 2.90 is
    0.20000000000000018 and is reported as 0.20. *)
Example exit_shortfall_0_20 :
  errorMessage
    (fst (handleScanToExit cardEnv (tariff (JS.cents 310)) clk2 (Some 2)
            (withCard testCard (JS.cents 290) (Some (tripFrom 1))
               (booted (tariff (JS.cents 310))))))
  = Some (InsufficientBalanceFor (Some "3.10") (Some "2.90") (Some "0.20")) /\
  (JS.cents 310 - JS.cents 290 =? JS.cents 20)%float = false.
Proof. split; vm_compute; reflexivity. Qed.

(** Cent precision itself ends where binary64 does: a fare of
    90071992547409.93 is held as 90071992547409.9375 and reported, with
    an empty card, as a shortfall of 90071992547409.94. *)
Example exit_shortfall_beyond_binary64 :
  errorMessage
    (fst (handleScanToExit cardEnv (tariff 90071992547409.9375) clk2 (Some 2)
            (withCard testCard 0 (Some (tripFrom 1))
               (booted (tariff 90071992547409.9375)))))
  = Some (InsufficientBalanceFor
            (Some "90071992547409.94") (Some "0.00")
            (Some "90071992547409.94")).
Proof. vm_compute. reflexivity. Qed.

Example exit_shortfall_1_25 :
  errorMessage
    (fst (handleScanToExit cardEnv unreachable clk2 (Some 2)
            (withCard testCard 2 (Some (tripFrom 1)) bootedOffline)))
  = Some (InsufficientBalanceFor (Some "3.25") (Some "2.00") (Some "1.25")).
Proof. vm_compute. reflexivity. Qed.

(** C4 at the test card: first scan on a kiosk booted offline (minimum
    fare 2.25, seeded balance 25.00), entry at station 1. *)
Lemma entry_sets_trip_keeps_balance_witness :
  let r := fst (handleDefaultScan cardEnv unreachable clk1 (Some 1)
                  bootedOffline) in
  let w' := snd (handleDefaultScan cardEnv unreachable clk1 (Some 1)
                   bootedOffline) in
  success r = true /\
  cardState testCard w'
    = {| cs_balance := cs_balance (cardState testCard bootedOffline);
         cs_activeTrip := Some {| TripData.station_id := 1;
                                  TripData.timestamp := now_iso clk1 |} |} /\
  (forall v, v <> testCard -> cardState v w' = cardState v bootedOffline).
Proof.
  apply (entry_sets_trip_keeps_balance cardEnv unreachable clk1 (Some 1)
           bootedOffline testCard 1 2.25%float);
    solve [ vm_compute; reflexivity | discriminate ].
Defined.

(** C8, as stated, fails: the test card, ACTIVE with a trip from station 1,
    is scanned at the entry of station 3; the entry is accepted and the
    trip from station 1 is replaced by one from station 3. *)
Lemma entry_overwrites_active_trip :
  let r := fst (handleDefaultScan cardEnv unreachable clk2 (Some 3) entered) in
  let w' := snd (handleDefaultScan cardEnv unreachable clk2 (Some 3)
                   entered) in
  tripState testCard entered = ACTIVE /\
  cs_activeTrip (cardState testCard entered) = Some (tripFrom 1) /\
  success r = true /\
  tripState testCard w' = ACTIVE /\
  cs_activeTrip (cardState testCard w')
    = Some {| TripData.station_id := 3;
              TripData.timestamp := now_iso clk2 |} /\
  cs_activeTrip (cardState testCard w')
    <> cs_activeTrip (cardState testCard entered).
Proof.
  cbv zeta. repeat (split; [ vm_compute; reflexivity | ]).
  vm_compute. discriminate.
Qed.

(** C8 at the test card, ACTIVE with a trip from station 1, scanned with
    station 3 selected. *)
Lemma trip_transitions_witness :
  (let r := fst (handleDefaultScan cardEnv unreachable clk2 (Some 3) entered) in
   let w' := snd (handleDefaultScan cardEnv unreachable clk2 (Some 3)
                    entered) in
   if success r
   then exists sid,
          JS.or_id (Some 3) (VITE_ENTRY_STATION_ID cardEnv) = Some sid /\
          cs_activeTrip (cardState testCard w')
            = Some {| TripData.station_id := sid;
                      TripData.timestamp := now_iso clk2 |}
   else cs_activeTrip (cardState testCard w')
        = cs_activeTrip (cardState testCard entered)) /\
  (let r := fst (handleScanToExit cardEnv unreachable clk2 (Some 3) entered) in
   let w' := snd (handleScanToExit cardEnv unreachable clk2 (Some 3)
                    entered) in
   match cs_activeTrip (cardState testCard entered) with
   | None => success r = true /\ cs_activeTrip (cardState testCard w') = None
   | Some t =>
       if success r
       then cs_activeTrip (cardState testCard w') = None
       else cs_activeTrip (cardState testCard w') = Some t
   end).
Proof.
  apply (trip_transitions cardEnv unreachable clk2 (Some 3) entered testCard).
  reflexivity.
Defined.

End Scenarios.

(* ===================================================================== *)
(** * Further properties of the code *)
(* ===================================================================== *)

(** ** Durable failure sink: export, clearing and the kiosk identifier *)

Section SinkOperations.

Import FailedOpsWriter.

Lemma slice_last_snoc {A} (n : nat) (l : list A) (x : A) :
  (0 < n)%nat -> last (JS.slice_last n (l ++ [x])) = Some x.
Proof.
  intros Hn. unfold JS.slice_last.
  rewrite drop_app_le by (rewrite length_app; simpl; lia).
  apply last_snoc.
Qed.

(** The operation just recorded is the last entry of the persisted backlog
    and of the in-memory batch: the retention cap never evicts it. *)
Theorem record_keeps_newest (clk : Clock) (op : Operation.t) (w : World) :
  let w' := snd (writeFailedOperation clk op w) in
  exists failedOp,
    FailedOp.id failedOp = fresh_op_id clk /\
    FailedOp.operation failedOp = op /\
    last (backlog w') = Some failedOp /\
    last (failedOps w') = Some failedOp.
Proof.
  destruct (writeFailedOperation_spec clk op w) as (f & Hid & Hop & Hm & Hb & _).
  cbv zeta in *. exists f. rewrite Hm, Hb.
  repeat (split; [ assumption | ]). split.
  - rewrite app_assoc. apply slice_last_snoc. lia.
  - apply last_snoc.
Qed.

(** [getKioskId] stores the identifier it returns; later calls return the
    stored one, whatever the clock. *)
Lemma getKioskId_stored (clk : Clock) (w : World) :
  kiosk_id (localStorage (snd (getKioskId clk w)))
  = Some (fst (getKioskId clk w)).
Proof.
  unfold getKioskId. destruct (kiosk_id (localStorage w)) eqn:E; simpl; auto.
Qed.

Lemma getKioskId_known (clk : Clock) (w : World) (k : string) :
  kiosk_id (localStorage w) = Some k -> getKioskId clk w = (k, w).
Proof. intros H. unfold getKioskId. rewrite H. reflexivity. Qed.

(** One call of [writeFailedOperation] downloads exactly one file, which
    holds exactly the new operation and carries the kiosk identifier that
    is stored afterwards. *)
Theorem record_exports_new_operation (clk : Clock) (op : Operation.t)
    (w : World) :
  let w' := snd (writeFailedOperation clk op w) in
  exists failedOp file,
    FailedOp.operation failedOp = op /\
    downloads w' = downloads w ++ [file] /\
    operations file = [failedOp] /\
    operationCount file = 1%nat /\
    export_kioskId file = FailedOp.kioskId failedOp /\
    kiosk_id (localStorage w') = Some (FailedOp.kioskId failedOp).
Proof.
  unfold writeFailedOperation.
  pose proof (getKioskId_stored clk w) as Hk.
  destruct (getKioskId_frame clk w) as (_ & _ & _ & Hd).
  destruct (getKioskId clk w) as [k w1]. simpl in Hk, Hd.
  cbn zeta. unfold snd.
  unfold exportToFile.
  match goal with
  | |- context [getKioskId clk ?w2] =>
      rewrite (getKioskId_known clk w2 k) by exact Hk
  end.
  eexists _, _. cbn. rewrite Hd, Hk.
  repeat split; reflexivity.
Qed.

(** Two operations recorded one after the other carry the same kiosk
    identifier, whatever the clocks say. *)
Theorem kiosk_id_is_stable (clkA clkB : Clock) (opA opB : Operation.t)
    (w : World) :
  let w1 := snd (writeFailedOperation clkA opA w) in
  let w2 := snd (writeFailedOperation clkB opB w1) in
  exists fA fB,
    last (failedOps w1) = Some fA /\
    last (failedOps w2) = Some fB /\
    FailedOp.operation fA = opA /\
    FailedOp.operation fB = opB /\
    FailedOp.kioskId fB = FailedOp.kioskId fA /\
    kiosk_id (localStorage w2) = Some (FailedOp.kioskId fA).
Proof.
  cbv zeta.
  assert (Hgen : forall clk op w0,
            exists f,
              last (failedOps (snd (writeFailedOperation clk op w0))) = Some f /\
              FailedOp.operation f = op /\
              kiosk_id (localStorage (snd (writeFailedOperation clk op w0)))
                = Some (FailedOp.kioskId f) /\
              (forall k, kiosk_id (localStorage w0) = Some k ->
                         FailedOp.kioskId f = k)).
  { intros clk op w0. unfold writeFailedOperation.
    pose proof (getKioskId_stored clk w0) as Hk.
    pose proof (fun k H => f_equal fst (getKioskId_known clk w0 k H)) as Hkn.
    destruct (getKioskId clk w0) as [k w1]. simpl in Hk, Hkn.
    cbn zeta. unfold snd. unfold exportToFile.
    match goal with
    | |- context [getKioskId clk ?w2] =>
        rewrite (getKioskId_known clk w2 k) by exact Hk
    end.
    eexists. cbn. rewrite last_snoc, Hk. repeat split; try reflexivity.
    cbn. exact Hkn. }
  destruct (Hgen clkA opA w) as (fA & HlA & HoA & HkA & _).
  destruct (Hgen clkB opB (snd (writeFailedOperation clkA opA w)))
    as (fB & HlB & HoB & HkB & Hsame).
  exists fA, fB. repeat (split; [ assumption | ]).
  rewrite (Hsame _ HkA) in *. split; [ reflexivity | exact HkB ].
Qed.

End SinkOperations.

Section SinkRecovery.

Import FailedOpsWriter.

(** [exportAllFromStorage] reports [false] and downloads nothing when the
    backlog is empty; otherwise it reports [true] and downloads one file
    holding the whole backlog.  Either way the backlog and the in-memory
    batch are left as they are, so a second call exports the same
    operations. *)
Theorem exportAll_leaves_backlog (clk clk' : Clock) (w : World) :
  let r := fst (exportAllFromStorage clk w) in
  let w' := snd (exportAllFromStorage clk w) in
  backlog w' = backlog w /\
  failedOps w' = failedOps w /\
  match backlog w with
  | [] => r = false /\ downloads w' = downloads w
  | _ :: _ =>
      r = true /\
      exists file file',
        downloads w' = downloads w ++ [file] /\
        operations file = backlog w /\
        operationCount file = length (backlog w) /\
        downloads (snd (exportAllFromStorage clk' w'))
          = downloads w ++ [file; file'] /\
        operations file' = backlog w
  end.
Proof.
  assert (Hone : forall c w0 o os,
            backlog w0 = o :: os ->
            backlog (snd (exportAllFromStorage c w0)) = backlog w0 /\
            failedOps (snd (exportAllFromStorage c w0)) = failedOps w0 /\
            fst (exportAllFromStorage c w0) = true /\
            exists file,
              downloads (snd (exportAllFromStorage c w0))
                = downloads w0 ++ [file] /\
              operations file = backlog w0 /\
              operationCount file = length (backlog w0)).
  { intros c w0 o os H. unfold exportAllFromStorage.
    unfold backlog in *. rewrite H. cbn [fst snd].
    destruct (exportToFile_frame c (o :: os) w0) as (_ & Hb & Hf).
    unfold backlog in Hb. rewrite Hb, Hf, H.
    repeat (split; [ reflexivity | ]).
    unfold exportToFile.
    destruct (getKioskId_frame c w0) as (_ & _ & _ & Hd).
    destruct (getKioskId c w0) as [k w1]. simpl in Hd.
    eexists. cbn. rewrite Hd. repeat split; reflexivity. }
  cbv zeta. destruct (backlog w) as [ | o os ] eqn:E.
  - unfold exportAllFromStorage. unfold backlog in E. rewrite E.
    cbn [fst snd]. unfold backlog. rewrite E. auto.
  - destruct (Hone clk w o os E) as (Hb & Hf & Hr & file & Hd & Ho & Hc).
    rewrite Hb, Hf, E. repeat (split; [ auto | ]).
    assert (E' : backlog (snd (exportAllFromStorage clk w)) = o :: os)
      by (rewrite Hb; exact E).
    destruct (Hone clk' _ o os E') as (_ & _ & _ & file' & Hd' & Ho' & _).
    exists file, file'. rewrite Hd', Hd, <- app_assoc. cbn [app].
    rewrite Ho', E', Ho, Hc, E. auto.
Qed.

(** [clearStorage] empties the persisted backlog but not the in-memory
    batch, so the next recorded operation brings every operation recorded
    since the page was loaded back into the backlog. *)
Theorem cleared_operations_reappear (clk : Clock) (op : Operation.t)
    (w : World) :
  let w1 := snd (clearStorage w) in
  let w2 := snd (writeFailedOperation clk op w1) in
  fst (clearStorage w) = true /\
  getPendingCount w1 = 0%nat /\
  failedOps w1 = failedOps w /\
  exists failedOp,
    FailedOp.operation failedOp = op /\
    backlog w2 = JS.slice_last 100 (failedOps w ++ [failedOp]).
Proof.
  cbv zeta. repeat (split; [ reflexivity | ]).
  destruct (writeFailedOperation_spec clk op (snd (clearStorage w)))
    as (f & _ & Hop & _ & Hb & _).
  cbv zeta in Hb. exists f. split; [ exact Hop | ].
  rewrite Hb. reflexivity.
Qed.

(** [exportToFile()] without an argument downloads the in-memory batch as
    one file and empties it (doing nothing when the batch is empty); the
    backlog is untouched.  Once the batch is empty, recording an operation
    adds that operation alone to the backlog. *)
Theorem export_batch_empties_memory (clk clk' : Clock) (op : Operation.t)
    (w : World) :
  let w1 := exportToFile clk None w in
  let w2 := snd (writeFailedOperation clk' op w1) in
  failedOps w1 = [] /\
  backlog w1 = backlog w /\
  match failedOps w with
  | [] => downloads w1 = downloads w
  | _ :: _ =>
      exists file,
        downloads w1 = downloads w ++ [file] /\
        operations file = failedOps w
  end /\
  exists failedOp,
    FailedOp.operation failedOp = op /\
    failedOps w2 = [failedOp] /\
    backlog w2 = JS.slice_last 100 (backlog w ++ [failedOp]).
Proof.
  cbv zeta.
  assert (H1 : failedOps (exportToFile clk None w) = [] /\
               backlog (exportToFile clk None w) = backlog w /\
               match failedOps w with
               | [] => downloads (exportToFile clk None w) = downloads w
               | _ :: _ =>
                   exists file,
                     downloads (exportToFile clk None w)
                       = downloads w ++ [file] /\
                     operations file = failedOps w
               end).
  { unfold exportToFile. destruct (failedOps w) as [ | o os ] eqn:E.
    - rewrite E. auto.
    - destruct (getKioskId_frame clk w) as (_ & Hb & Hf & Hd).
      destruct (getKioskId clk w) as [k w0]. simpl in Hb, Hf, Hd.
      cbn. split; [ reflexivity | ]. split; [ exact Hb | ].
      eexists. rewrite Hd. split; reflexivity. }
  destruct H1 as (Hm & Hb & Hd).
  repeat (split; [ assumption | ]).
  destruct (writeFailedOperation_spec clk' op (exportToFile clk None w))
    as (f & _ & Hop & Hm' & Hb' & _).
  cbv zeta in Hm', Hb'. exists f. rewrite Hm', Hb', Hm, Hb.
  auto.
Qed.

End SinkRecovery.

(** ** Config provider: what the getters return *)

Section ConfigGetters.

Import ConfigManager.

Lemma or_else_truthy (x y : float) :
  JS.truthy y = true -> JS.truthy (JS.or_else x y) = true.
Proof. intros H. unfold JS.or_else. destruct (JS.truthy x) eqn:E; auto. Qed.

(** Every fare the configuration manager hands out is a truthy number:
    [getMinimumFare] and [getPricing] never return [0] or [NaN], whatever
    the configuration holds, because the fallback chain ends in the
    constant 2.25. *)
Theorem config_fares_are_truthy (cm : t) (a b : Z) :
  JS.truthy (fst (getMinimumFare cm)) = true /\
  JS.truthy (fst (getPricing a b cm)) = true.
Proof.
  assert (Hmin : forall c, JS.truthy (fst (getMinimumFare c)) = true).
  { intros c. unfold getMinimumFare. cbn [fst].
    destruct (config (ensureConfig c)) as [ c0 | ];
      [ destruct (minimumFare c0) | ];
      repeat apply or_else_truthy; reflexivity. }
  split; [ apply Hmin | ].
  unfold getPricing.
  destruct (List.find _ _) as [p | ]; [ | apply Hmin ].
  destruct (JS.truthy (fare p)) eqn:E; [ exact E | apply Hmin ].
Qed.

(** Reading a manager that was never initialised degrades to the static
    snapshot: the static stations, the static minimum fare and the static
    fare table answer every getter, the snapshot is kept as the
    configuration, and [startedInOfflineMode()] still reports what it
    reported before. *)
Theorem getters_before_initialize (cm : t) (a b : Z) :
  config cm = None ->
  fst (getStations cm) = transitConfig.stations /\
  fst (getMinimumFare cm) = transitConfig.minimumFare /\
  fst (getPricing a b cm) = fst (getPricing a b (loadStaticConfig cm)) /\
  config (snd (getPricing a b cm)) = Some staticConfig /\
  startedInOfflineMode (snd (getPricing a b cm)) = startedInOfflineMode cm.
Proof.
  intros H. unfold getStations, getMinimumFare, getPricing, ensureConfig.
  rewrite H. cbn [config loadStaticConfig fst snd].
  repeat (split; [ reflexivity | ]).
  destruct (List.find _ _) as [p | ]; [ destruct (JS.truthy (fare p)) | ];
    split; reflexivity.
Qed.

Lemma getters_before_initialize_witness :
  fst (getStations new) = transitConfig.stations /\
  fst (getMinimumFare new) = transitConfig.minimumFare /\
  fst (getPricing 3 1 new) = fst (getPricing 3 1 (loadStaticConfig new)) /\
  config (snd (getPricing 3 1 new)) = Some staticConfig /\
  startedInOfflineMode (snd (getPricing 3 1 new)) = startedInOfflineMode new.
Proof. apply (getters_before_initialize new 3 1). reflexivity. Defined.

(** A getter never changes a configuration that is loaded. *)
Lemma getters_keep_loaded_config (cm : t) (c : Config) (a b : Z) :
  config cm = Some c ->
  snd (getStations cm) = cm /\
  snd (getMinimumFare cm) = cm /\
  snd (getPricing a b cm) = cm /\
  fst (getStations cm) = stations c.
Proof.
  intros H.
  assert (He : ensureConfig cm = cm) by (unfold ensureConfig; now rewrite H).
  unfold getStations, getPricing, getMinimumFare.
  rewrite !He, H. cbn [fst snd].
  repeat (split; [ reflexivity | ]). split; [ | reflexivity ].
  destruct (List.find _ _) as [p | ]; [ destruct (JS.truthy (fare p)) | ];
    cbn [snd]; rewrite ?He; reflexivity.
Qed.

(** [getStationName] never returns an empty label.  It is the name of the
    first station with that identifier when that name is not empty.
    Otherwise, for an identifier that is a safe integer, it is
    ["Station <id>"] with the identifier in decimal digits, and the labels
    made up for two different unknown identifiers differ. *)
Theorem getStationName_label (cm : t) (stationId other : Z) :
  let sts := fst (getStations cm) in
  fst (getStationName stationId cm) <> Some "" /\
  (forall s, List.find (fun s => Station.id s =? stationId) sts = Some s ->
             Station.name s <> "" ->
             fst (getStationName stationId cm) = Some (Station.name s)) /\
  (Z.abs stationId < 2 ^ 53 ->
   List.find (fun s => Station.id s =? stationId) sts = None ->
   fst (getStationName stationId cm)
     = Some ("Station " +:+ pretty stationId)) /\
  (Z.abs stationId < 2 ^ 53 -> Z.abs other < 2 ^ 53 ->
   List.find (fun s => Station.id s =? stationId) sts = None ->
   List.find (fun s => Station.id s =? other) sts = None ->
   stationId <> other ->
   fst (getStationName stationId cm) <> fst (getStationName other cm)).
Proof.
  assert (Hsafe : forall n, Z.abs n < 2 ^ 53 ->
                            JS.interpolate n = Some (pretty n)).
  { intros n Hn. unfold JS.interpolate.
    apply Z.ltb_lt in Hn. rewrite Hn. reflexivity. }
  cbv zeta. unfold getStationName.
  destruct (getStations cm) as [sts cm']. cbn [fst].
  split; [ | split; [ | split ] ].
  - destruct (List.find _ sts) as [s | ].
    + destruct (Station.name s) eqn:E; [ | discriminate ].
      destruct (JS.interpolate stationId); discriminate.
    + destruct (JS.interpolate stationId); discriminate.
  - intros s -> Hne. destruct (Station.name s); [ congruence | reflexivity ].
  - intros Hn ->. rewrite (Hsafe _ Hn). reflexivity.
  - intros Hn Ho -> -> Hne Heq. apply Hne.
    rewrite (Hsafe _ Hn), (Hsafe _ Ho) in Heq.
    apply (inj pretty). apply (inj (String.append "Station ")).
    congruence.
Qed.

(** Known and unknown stations of the bundled snapshot. *)
Example getStationName_static :
  fst (getStationName 3 new) = Some "Airport Terminal" /\
  fst (getStationName 42 new) = Some "Station 42" /\
  fst (getStationName (10 ^ 21) new) = None.
Proof. vm_compute. repeat split; reflexivity. Qed.

End ConfigGetters.

(** ** Fare store: the cache *)

Section FareCache.

Import FareStore.

Lemma cacheKey_sym (a b : Z) : cacheKey a b = cacheKey b a.
Proof.
  unfold cacheKey.
  destruct (a <? b) eqn:E1, (b <? a) eqn:E2; try reflexivity.
  - apply Z.ltb_lt in E1, E2. lia.
  - apply Z.ltb_ge in E1, E2. f_equal; lia.
Qed.

(** Two pairs share a cache key exactly when they are the same unordered
    pair, which is what [getPricing]'s predicate tests. *)
Lemma cacheKey_matches (a b : Z) (p : FareEntry) :
  bool_decide (cacheKey (stationA p) (stationB p) = cacheKey a b)
  = ConfigManager.matches a b p.
Proof.
  unfold ConfigManager.matches, cacheKey.
  destruct (stationA p <? stationB p) eqn:E1, (a <? b) eqn:E2;
    [ apply Z.ltb_lt in E1, E2 | apply Z.ltb_lt in E1; apply Z.ltb_ge in E2
    | apply Z.ltb_ge in E1; apply Z.ltb_lt in E2
    | apply Z.ltb_ge in E1, E2 ];
    destruct (stationA p =? a) eqn:Ea, (stationB p =? b) eqn:Eb,
             (stationA p =? b) eqn:Eab, (stationB p =? a) eqn:Eba;
    repeat match goal with
           | H : (_ =? _) = true |- _ => apply Z.eqb_eq in H
           | H : (_ =? _) = false |- _ => apply Z.eqb_neq in H
           end;
    cbn [andb orb];
    first [ apply bool_decide_eq_true; f_equal; lia
          | apply bool_decide_eq_false; intros [= ? ?]; lia ].
Qed.

(** After a fare has been fetched for a pair, every later fetch of the pair,
    in either order, returns that fare and leaves the store as it is,
    whatever the backend would answer then. *)
Theorem fetched_fare_is_cached (be be' : Backend) (a b : Z) (w : World) :
  let r := fst (fetchFareBetweenStations be a b w) in
  let w1 := snd (fetchFareBetweenStations be a b w) in
  r <> None /\
  getFareBetweenStations a b w1 = r /\
  fetchFareBetweenStations be' a b w1 = (r, w1) /\
  fetchFareBetweenStations be' b a w1 = (r, w1).
Proof.
  cbv zeta.
  assert (H : fst (fetchFareBetweenStations be a b w) <> None /\
              fareCache (fareStore (snd (fetchFareBetweenStations be a b w)))
                !! cacheKey a b
              = fst (fetchFareBetweenStations be a b w)).
  { unfold fetchFareBetweenStations.
    destruct (fareCache (fareStore w) !! cacheKey a b) as [f | ] eqn:E.
    - cbn [fst snd]. rewrite E. split; [ discriminate | reflexivity ].
    - destruct (offlineApi.getFareBetweenStations be a b w) as [p w0].
      cbn. rewrite lookup_insert_eq. split; [ discriminate | reflexivity ]. }
  destruct H as [Hne Hc].
  remember (snd (fetchFareBetweenStations be a b w)) as w1 eqn:Hw1.
  destruct (fst (fetchFareBetweenStations be a b w)) as [f | ];
    [ clear Hw1 | congruence ].
  split; [ discriminate | ]. split; [ exact Hc | ].
  unfold fetchFareBetweenStations.
  rewrite (cacheKey_sym b a), Hc. auto.
Qed.

Lemma find_snoc {A} (P : A -> bool) (l : list A) (x : A) :
  List.find P (l ++ [x])
  = match List.find P l with
    | Some y => Some y
    | None => if P x then Some x else None
    end.
Proof.
  induction l as [ | y l IH ]; simpl.
  - reflexivity.
  - destruct (P y); [ reflexivity | exact IH ].
Qed.

(** Filling a cache from a list of entries: for each pair the last entry of
    the list that matches it decides. *)
Lemma fill_cache_last_wins (l : list FareEntry) (acc : gmap (Z * Z) float)
    (a b : Z) :
  foldl (fun acc p => <[cacheKey (stationA p) (stationB p) := fare p]> acc)
        acc l !! cacheKey a b
  = match List.find (ConfigManager.matches a b) (rev l) with
    | Some p => Some (fare p)
    | None => acc !! cacheKey a b
    end.
Proof.
  revert acc. induction l as [ | p l IH ]; intros acc; simpl.
  - reflexivity.
  - rewrite IH, find_snoc.
    destruct (List.find (ConfigManager.matches a b) (rev l)); [ reflexivity | ].
    rewrite <- (cacheKey_matches a b p).
    case_bool_decide as Hk.
    + rewrite Hk. apply lookup_insert_eq.
    + apply lookup_insert_ne. exact Hk.
Qed.

(** [initializeFromConfig] stores the manager's minimum fare and, for each
    unordered pair, the fare of the LAST entry of the configured table that
    matches it (a pair without entry keeps what the cache held), whereas
    [getPricing] answers with the first. *)
Theorem initializeFromConfig_last_entry_wins (w : World) (a b : Z) :
  let w' := initializeFromConfig w in
  FareStore.getMinimumFare w'
    = Some (fst (ConfigManager.getMinimumFare (configManager w))) /\
  getFareBetweenStations a b w'
    = match List.find (ConfigManager.matches a b)
              (rev (effectivePricing (configManager w))) with
      | Some p => Some (fare p)
      | None => getFareBetweenStations a b w
      end /\
  localStorage w' = localStorage w.
Proof.
  cbv zeta. unfold initializeFromConfig, ConfigManager.getMinimumFare,
    getFareBetweenStations, FareStore.getMinimumFare, effectivePricing.
  cbn. rewrite fill_cache_last_wins.
  destruct (ConfigManager.config
              (ConfigManager.ensureConfig (configManager w))) eqn:E;
    [ auto | ].
  exfalso. unfold ConfigManager.ensureConfig in E.
  destruct (ConfigManager.config (configManager w)) eqn:E'.
  - congruence.
  - discriminate E.
Qed.

End FareCache.

Section FarePreload.

Import FareStore.

(** [fetchMinimumFare] always yields a number, stores it, and from then on
    returns the stored number without regard to the backend. *)
Theorem fetched_minimum_fare_is_cached (be be' : Backend) (w : World) :
  let r := fst (fetchMinimumFare be w) in
  let w1 := snd (fetchMinimumFare be w) in
  r <> None /\
  FareStore.getMinimumFare w1 = r /\
  fetchMinimumFare be' w1 = (r, w1) /\
  localStorage w1 = localStorage w.
Proof.
  cbv zeta. unfold fetchMinimumFare, FareStore.getMinimumFare.
  destruct (fs_minimumFare (fareStore w)) as [m | ] eqn:E.
  - cbn [fst snd]. rewrite E. repeat split. discriminate.
  - unfold offlineApi.getMinimumFare.
    destruct (api_getMinimumFare be) as [m | ].
    + cbn. repeat split. discriminate.
    + destruct (ConfigManager.getMinimumFare (configManager w)) as [m cm].
      cbn. repeat split. discriminate.
Qed.

Lemma foldl_map {A B C} (f : C -> B -> C) (g : A -> B) (l : list A) (acc : C) :
  foldl f acc (map g l) = foldl (fun acc x => f acc (g x)) acc l.
Proof. revert acc. induction l as [ | x l IH ]; intros acc; simpl; auto. Qed.

(** [preloadAllFares] caches, for each unordered pair, the price of the
    LAST row of the pricing list that matches it; pairs without a row keep
    what the cache held.  Nothing but the cache changes. *)
Theorem preloadAllFares_last_row_wins (be : Backend) (w : World) (a b : Z) :
  let w' := preloadAllFares be w in
  getFareBetweenStations a b w'
    = match List.find (ConfigManager.matches a b)
              (rev (map ConfigManager.mapRow (offlineApi.getAllPricing be w)))
      with
      | Some p => Some (fare p)
      | None => getFareBetweenStations a b w
      end /\
  FareStore.getMinimumFare w' = FareStore.getMinimumFare w /\
  localStorage w' = localStorage w /\
  configManager w' = configManager w.
Proof.
  cbv zeta. unfold preloadAllFares, getFareBetweenStations,
    FareStore.getMinimumFare.
  cbn. rewrite <- fill_cache_last_wins, foldl_map. auto.
Qed.




(** The same start in figures: the minimum fare 2.25 is stored, the pair
    (1, 2) is cached at the static 3.25, all 28 pairs of the snapshot are
    cached; [preloadAllFares()] alone leaves the cache empty. *)
Example preload_after_minimum_fare_fallback_static :
  let w2 := preloadAllFares unreachable
              (snd (fetchMinimumFare unreachable freshWorld)) in
  FareStore.getMinimumFare w2 = Some 2.25%float /\
  getFareBetweenStations 1 2 w2 = Some 3.25%float /\
  getFareBetweenStations 2 1 w2 = Some 3.25%float /\
  size (fareCache (fareStore w2)) = 28%nat /\
  size (fareCache (fareStore (preloadAllFares unreachable freshWorld)))
    = 0%nat.
Proof. vm_compute. repeat split; reflexivity. Qed.

End FarePreload.

(** ** Scanner: rejected and free scans *)

Section ScanEdges.

Import testConfig ScannerService.

Variables (env : Env) (be : Backend) (clk : Clock).

Lemma set_localStorage_same (w : World) :
  set_localStorage (localStorage w) w = w.
Proof. destruct w; reflexivity. Qed.

Lemma set_world_same (k : Kiosk) : set_world (world k) k = k.
Proof. destruct k; reflexivity. Qed.

(** Without a configured test card every scanning handler fails with
    ["No test card configured"] and a five-second timeout, and changes
    nothing at all. *)
Theorem scan_without_card_changes_nothing (stationId : option Z) (k : Kiosk) :
  VITE_TEST_CARD_UUID env = None ->
  handleDefaultScan env be clk stationId (world k)
    = (failure "No test card configured", world k) /\
  handleScanToExit env be clk stationId (world k)
    = (failure "No test card configured", world k) /\
  handleHistoryScan env k = (failure "No test card configured", k) /\
  handleAddFareScan env k = (failure "No test card configured", k) /\
  timeout (failure "No test card configured") = Some 5000.
Proof.
  intros H.
  unfold handleDefaultScan, handleScanToExit, handleHistoryScan,
    handleAddFareScan, scanCard.
  rewrite H, set_localStorage_same, set_world_same. auto.
Qed.

(** An exit scan of a card without an active trip is a free exit: it
    succeeds whatever the exit station and the backend are, goes to
    [/exit], and changes neither a card's balance or trip nor the failure
    sink. *)
Theorem exit_without_trip_is_free (stationId : option Z) (w : World)
    (u : string) :
  VITE_TEST_CARD_UUID env = Some u ->
  cs_activeTrip (cardState u w) = None ->
  let r := fst (handleScanToExit env be clk stationId w) in
  let w' := snd (handleScanToExit env be clk stationId w) in
  r = ok /\
  (forall v, cardState v w' = cardState v w) /\
  sinkState w' = sinkState w /\
  pushed w' = pushed w ++ ["/exit"].
Proof.
  intros Hu Htrip.
  destruct (scanCard_spec env u (localStorage w) Hu)
    as (ls' & Hs & Ht & Hfo & Hk & Hb & Hv).
  cbv zeta. unfold handleScanToExit, readCardTrip. rewrite Hs.
  cbn [CardData.uuid localStorage set_localStorage].
  rewrite Ht. unfold cardState in Htrip. cbn [cs_activeTrip] in Htrip.
  rewrite Htrip. cbn [fst snd].
  split; [ reflexivity | ]. split; [ | split ].
  - intros v. unfold cardState. cbn. rewrite Ht, Hv. reflexivity.
  - unfold sinkState, backlog. cbn. rewrite Hfo. reflexivity.
  - reflexivity.
Qed.

(** An entry scan of a card whose balance is below the minimum fare is
    rejected as an insufficient balance, hands the scanned card back for the
    top-up shortcut, and changes neither a card's balance or trip nor the
    failure sink; no trip creation is attempted. *)
Theorem entry_insufficient_changes_nothing (stationId : option Z) (w : World)
    (u : string) (sid : Z) :
  VITE_TEST_CARD_UUID env = Some u ->
  JS.or_id stationId (VITE_ENTRY_STATION_ID env) = Some sid ->
  sid <> 0 ->
  JS.lt_nullable (cs_balance (cardState u w)) (FareStore.getMinimumFare w)
    = true ->
  let r := fst (handleDefaultScan env be clk stationId w) in
  let w' := snd (handleDefaultScan env be clk stationId w) in
  r = insufficient (Text "Insufficient balance")
        {| CardData.uuid := u;
           CardData.balance := cs_balance (cardState u w) |} /\
  (forall v, cardState v w' = cardState v w) /\
  sinkState w' = sinkState w /\
  pushed w' = pushed w.
Proof.
  intros Hu Hor Hsid Hlt.
  destruct (handleDefaultScan_with_station env be clk stationId w u sid
              Hu Hor Hsid) as (ls' & Ht & Hfo & Hv & Heq).
  cbv zeta in *. rewrite Heq, Hlt. cbn [fst snd].
  split; [ reflexivity | ]. split; [ | split ].
  - intros v. unfold cardState. cbn. rewrite Ht, Hv. reflexivity.
  - unfold sinkState, backlog. cbn. rewrite Hfo. reflexivity.
  - reflexivity.
Qed.

(** When the fare store holds no minimum fare ([null]), the entry check
    compares the balance with zero: every card whose balance is not
    negative is admitted, a card with balance 0.00 included. *)
Theorem entry_without_minimum_fare (stationId : option Z) (w : World)
    (u : string) (sid : Z) :
  VITE_TEST_CARD_UUID env = Some u ->
  JS.or_id stationId (VITE_ENTRY_STATION_ID env) = Some sid ->
  sid <> 0 ->
  FareStore.getMinimumFare w = None ->
  (cs_balance (cardState u w) <? 0)%float = false ->
  let r := fst (handleDefaultScan env be clk stationId w) in
  let w' := snd (handleDefaultScan env be clk stationId w) in
  r = ok /\
  cs_activeTrip (cardState u w')
    = Some {| TripData.station_id := sid;
              TripData.timestamp := now_iso clk |}.
Proof.
  intros Hu Hor Hsid Hmin Hlt.
  destruct (handleDefaultScan_with_station env be clk stationId w u sid
              Hu Hor Hsid) as (ls' & Ht & Hfo & Hv & Heq).
  cbv zeta in *. rewrite Heq, Hmin. unfold JS.lt_nullable. rewrite Hlt.
  cbn [fst snd]. split; [ reflexivity | ].
  match goal with
  | |- context [router_push ?p (offlineApi.createTrip be clk u sid ?w2)] =>
      rewrite (cardState_sameCards u _ _
                 (sameCards_trans _ _ _ (createTrip_frame be clk u sid w2)
                    (proj1 (router_push_frame p
                              (offlineApi.createTrip be clk u sid w2)))))
  end.
  unfold cardState. cbn. apply lookup_insert_eq.
Qed.

End ScanEdges.

(** The same at concrete kiosks. *)

Section ScanEdgeScenarios.

Import testConfig ScannerService.

Lemma scan_without_card_changes_nothing_witness :
  let noCard := {| VITE_TEST_CARD_UUID := None;
                   VITE_ENTRY_STATION_ID := Some 1;
                   VITE_EXIT_STATION_ID := Some 2 |} in
  handleDefaultScan noCard unreachable clk1 (Some 1) (world (kioskOf entered))
    = (failure "No test card configured", world (kioskOf entered)) /\
  handleScanToExit noCard unreachable clk1 (Some 1) (world (kioskOf entered))
    = (failure "No test card configured", world (kioskOf entered)) /\
  handleHistoryScan noCard (kioskOf entered)
    = (failure "No test card configured", kioskOf entered) /\
  handleAddFareScan noCard (kioskOf entered)
    = (failure "No test card configured", kioskOf entered) /\
  timeout (failure "No test card configured") = Some 5000.
Proof.
  apply (scan_without_card_changes_nothing _ unreachable clk1 (Some 1)
           (kioskOf entered)).
  reflexivity.
Defined.

Lemma exit_without_trip_is_free_witness :
  let w := withCard testCard 0 None bootedOffline in
  let r := fst (handleScanToExit cardEnv unreachable clk1 None w) in
  let w' := snd (handleScanToExit cardEnv unreachable clk1 None w) in
  r = ok /\
  (forall v, cardState v w' = cardState v w) /\
  sinkState w' = sinkState w /\
  pushed w' = pushed w ++ ["/exit"].
Proof.
  apply (exit_without_trip_is_free cardEnv unreachable clk1 None
           (withCard testCard 0 None bootedOffline) testCard);
    vm_compute; reflexivity.
Defined.

Lemma entry_insufficient_changes_nothing_witness :
  let w := withCard testCard 2 None bootedOffline in
  let r := fst (handleDefaultScan cardEnv unreachable clk1 (Some 1) w) in
  let w' := snd (handleDefaultScan cardEnv unreachable clk1 (Some 1) w) in
  r = insufficient (Text "Insufficient balance")
        {| CardData.uuid := testCard;
           CardData.balance := cs_balance (cardState testCard w) |} /\
  (forall v, cardState v w' = cardState v w) /\
  sinkState w' = sinkState w /\
  pushed w' = pushed w.
Proof.
  apply (entry_insufficient_changes_nothing cardEnv unreachable clk1 (Some 1)
           (withCard testCard 2 None bootedOffline) testCard 1);
    solve [ vm_compute; reflexivity | discriminate ].
Defined.

Lemma entry_without_minimum_fare_witness :
  let w := withCard testCard 0 None freshWorld in
  let r := fst (handleDefaultScan cardEnv unreachable clk1 (Some 1) w) in
  let w' := snd (handleDefaultScan cardEnv unreachable clk1 (Some 1) w) in
  r = ok /\
  cs_activeTrip (cardState testCard w')
    = Some {| TripData.station_id := 1;
              TripData.timestamp := now_iso clk1 |}.
Proof.
  apply (entry_without_minimum_fare cardEnv unreachable clk1 (Some 1)
           (withCard testCard 0 None freshWorld) testCard 1);
    solve [ vm_compute; reflexivity | discriminate ].
Defined.

End ScanEdgeScenarios.

(** ** Scanner: what an accepted scan records *)

Section ScanRecords.

Import testConfig ScannerService.

Variables (env : Env) (be : Backend) (clk : Clock).

Lemma sameFares_refl (w : World) : sameFares w w.
Proof. split; reflexivity. Qed.

Lemma sameFares_trans (w1 w2 w3 : World) :
  sameFares w1 w2 -> sameFares w2 w3 -> sameFares w1 w3.
Proof. intros [H1 H2] [H3 H4]. split; congruence. Qed.

(** The sink writes nothing but the sink. *)
Lemma getKioskId_sameFares (c : Clock) (w : World) :
  sameFares w (snd (FailedOpsWriter.getKioskId c w)) /\
  pushed (snd (FailedOpsWriter.getKioskId c w)) = pushed w.
Proof.
  unfold FailedOpsWriter.getKioskId, sameFares.
  destruct (kiosk_id (localStorage w)); repeat split; reflexivity.
Qed.

Lemma exportToFile_sameFares (c : Clock) (ops : list FailedOp.t) (w : World) :
  sameFares w (FailedOpsWriter.exportToFile c (Some ops) w) /\
  pushed (FailedOpsWriter.exportToFile c (Some ops) w) = pushed w.
Proof.
  unfold FailedOpsWriter.exportToFile. destruct ops as [ | o ops ].
  - split; [ apply sameFares_refl | reflexivity ].
  - destruct (getKioskId_sameFares c w) as [[Hf Hc] Hp].
    destruct (FailedOpsWriter.getKioskId c w) as [k w1].
    unfold sameFares. cbn in *. auto.
Qed.

Lemma writeFailedOperation_sameFares (c : Clock) (op : Operation.t)
    (w : World) :
  sameFares w (snd (FailedOpsWriter.writeFailedOperation c op w)) /\
  pushed (snd (FailedOpsWriter.writeFailedOperation c op w)) = pushed w.
Proof.
  unfold FailedOpsWriter.writeFailedOperation.
  destruct (getKioskId_sameFares c w) as [[Hf Hc] Hp].
  destruct (FailedOpsWriter.getKioskId c w) as [k w1].
  cbn [snd] in Hf, Hc, Hp. cbn zeta. unfold snd.
  match goal with
  | |- context [FailedOpsWriter.exportToFile c (Some ?ops) ?w2] =>
      destruct (exportToFile_sameFares c ops w2) as [[Hf2 Hc2] Hp2]
  end.
  unfold sameFares. rewrite Hf2, Hc2, Hp2. cbn. auto.
Qed.

(** A rejected write request ends in one recorded operation, which is the
    newest entry of the batch and of the backlog. *)
Lemma record_newest (c : Clock) (op : Operation.t) (w : World) :
  exists failedOp,
    FailedOp.operation failedOp = op /\
    failedOps (snd (FailedOpsWriter.writeFailedOperation c op w))
      = failedOps w ++ [failedOp] /\
    last (backlog (snd (FailedOpsWriter.writeFailedOperation c op w)))
      = Some failedOp.
Proof.
  destruct (writeFailedOperation_spec c op w) as (f & _ & Hop & Hm & Hb & _).
  cbv zeta in *. exists f. rewrite Hm, Hb.
  repeat (split; [ assumption || reflexivity | ]).
  rewrite app_assoc. apply slice_last_snoc. lia.
Qed.

Lemma fetchFare_frame (bk : Backend) (a b : Z) (w : World) :
  let w1 := snd (FareStore.fetchFareBetweenStations bk a b w) in
  localStorage w1 = localStorage w /\
  failedOps w1 = failedOps w /\
  downloads w1 = downloads w /\
  pushed w1 = pushed w.
Proof.
  cbv zeta.
  unfold FareStore.fetchFareBetweenStations, offlineApi.getFareBetweenStations.
  destruct (fareCache (fareStore w) !! FareStore.cacheKey a b);
    [ auto | ].
  destruct (api_getFareBetweenStations bk a b); [ cbn; auto | ].
  destruct (ConfigManager.getPricing a b (configManager w)); cbn; auto.
Qed.

(** The fare of a pair depends on the fare store and the configuration
    only. *)
Lemma fetchFare_sameFares (bk : Backend) (a b : Z) (w w' : World) :
  sameFares w w' ->
  fst (FareStore.fetchFareBetweenStations bk a b w')
  = fst (FareStore.fetchFareBetweenStations bk a b w).
Proof.
  intros [Hf Hc].
  unfold FareStore.fetchFareBetweenStations, offlineApi.getFareBetweenStations.
  rewrite Hf, Hc.
  destruct (fareCache (fareStore w) !! FareStore.cacheKey a b);
    [ reflexivity | ].
  destruct (api_getFareBetweenStations bk a b); [ reflexivity | ].
  destruct (ConfigManager.getPricing a b (configManager w)); reflexivity.
Qed.

(** An accepted entry whose trip-creation request rejects still succeeds,
    and records exactly one CREATE_TRIP operation carrying the card and the
    entry station, as the newest entry of batch and backlog. *)
Theorem entry_records_rejected_creation (stationId : option Z) (w : World)
    (u : string) (sid : Z) :
  VITE_TEST_CARD_UUID env = Some u ->
  JS.or_id stationId (VITE_ENTRY_STATION_ID env) = Some sid ->
  sid <> 0 ->
  JS.lt_nullable (cs_balance (cardState u w)) (FareStore.getMinimumFare w)
    = false ->
  api_createTrip be u sid = None ->
  let r := fst (handleDefaultScan env be clk stationId w) in
  let w' := snd (handleDefaultScan env be clk stationId w) in
  r = ok /\
  exists failedOp,
    FailedOp.operation failedOp
      = {| Operation.type := CREATE_TRIP;
           Operation.data := CreateTripData u sid;
           Operation.timestamp := now_iso clk |} /\
    failedOps w' = failedOps w ++ [failedOp] /\
    last (backlog w') = Some failedOp.
Proof.
  intros Hu Hor Hsid Hlt Hrej.
  destruct (handleDefaultScan_with_station env be clk stationId w u sid
              Hu Hor Hsid) as (ls' & Ht & Hfo & Hv & Heq).
  cbv zeta in *. rewrite Heq, Hlt. cbn [fst snd].
  split; [ reflexivity | ].
  unfold offlineApi.createTrip. rewrite Hrej.
  match goal with
  | |- context [FailedOpsWriter.writeFailedOperation clk ?op ?w2] =>
      destruct (record_newest clk op w2) as (f & Hop & Hm & Hl)
  end.
  exists f. split; [ exact Hop | ]. split.
  - cbn [failedOps router_push]. rewrite Hm. reflexivity.
  - unfold backlog in *. cbn [localStorage router_push]. exact Hl.
Qed.

(** An accepted exit whose card and trip lookups resolve but whose
    completion request rejects records exactly one COMPLETE_TRIP operation,
    carrying the backend's trip identifier, the exit station and the fare
    charged, as the newest entry of batch and backlog. *)
Theorem exit_records_rejected_completion (stationId : option Z) (w : World)
    (u : string) (trip : TripData.t) (dest : Z) (f : float) (card : Card)
    (t : ActiveTrip) :
  VITE_TEST_CARD_UUID env = Some u ->
  cs_activeTrip (cardState u w) = Some trip ->
  JS.or_id stationId (VITE_EXIT_STATION_ID env) = Some dest ->
  dest <> 0 ->
  fst (FareStore.fetchFareBetweenStations be (TripData.station_id trip) dest w)
    = Some f ->
  (cs_balance (cardState u w) <? f)%float = false ->
  api_getCardByUuid be u = Some (Some card) ->
  api_getActiveTrip be (card_id card) = Some (Some t) ->
  api_completeTrip be (trip_id t) dest f = None ->
  let r := fst (handleScanToExit env be clk stationId w) in
  let w' := snd (handleScanToExit env be clk stationId w) in
  r = ok /\
  exists failedOp,
    FailedOp.operation failedOp
      = {| Operation.type := COMPLETE_TRIP;
           Operation.data := CompleteTripData (trip_id t) dest f;
           Operation.timestamp := now_iso clk |} /\
    failedOps w' = failedOps w ++ [failedOp] /\
    last (backlog w') = Some failedOp.
Proof.
  intros Hu Htrip Hor Hdest Hfare Hlt Hc Ht Hx.
  destruct (handleScanToExit_with_trip env be clk stationId w u trip dest f
              Hu Htrip Hor Hdest Hfare) as (ls' & _ & Hfo & _ & Heq).
  destruct (fetchFare_frame be (TripData.station_id trip) dest w)
    as (_ & Hm1 & _ & _).
  cbv zeta in *. rewrite Heq, Hlt. cbn [fst snd].
  split; [ reflexivity | ].
  match goal with
  | |- context [syncExit be clk u dest f ?w2] =>
      destruct (syncExit_completion_rejected be clk u dest f w2 card t
                  Hc Ht Hx) as (fop & Hop & Hm & Hb)
  end.
  exists fop. split; [ exact Hop | ]. split.
  - cbn [failedOps router_push]. rewrite Hm. cbn. rewrite Hm1. reflexivity.
  - unfold backlog in *. cbn [localStorage router_push]. rewrite Hb.
    rewrite app_assoc. apply slice_last_snoc. lia.
Qed.

(** Entering and then exiting: when the entry at station [sid] is accepted
    and the balance covers the fare from [sid] to the exit station, the
    card ends without an active trip and with the balance it had before the
    entry less that fare, whatever the two backends answer to the write
    requests. *)
Theorem enter_then_exit (be2 : Backend) (clk2 : Clock)
    (entryId exitId : option Z) (w : World) (u : string) (sid dest : Z)
    (f : float) :
  VITE_TEST_CARD_UUID env = Some u ->
  JS.or_id entryId (VITE_ENTRY_STATION_ID env) = Some sid ->
  sid <> 0 ->
  JS.lt_nullable (cs_balance (cardState u w)) (FareStore.getMinimumFare w)
    = false ->
  JS.or_id exitId (VITE_EXIT_STATION_ID env) = Some dest ->
  dest <> 0 ->
  fst (FareStore.fetchFareBetweenStations be2 sid dest w) = Some f ->
  (cs_balance (cardState u w) <? f)%float = false ->
  let w1 := snd (handleDefaultScan env be clk entryId w) in
  let r2 := fst (handleScanToExit env be2 clk2 exitId w1) in
  let w2 := snd (handleScanToExit env be2 clk2 exitId w1) in
  fst (handleDefaultScan env be clk entryId w) = ok /\
  tripState u w1 = ACTIVE /\
  r2 = ok /\
  cardState u w2
    = {| cs_balance := (cs_balance (cardState u w) - f)%float;
         cs_activeTrip := None |} /\
  tripState u w2 = IDLE /\
  pushed w2 = pushed w ++ ["/enter"; "/exit"].
Proof.
  intros Hu HorE Hsid HltE HorX Hdest Hfare HltX.
  destruct (handleDefaultScan_with_station env be clk entryId w u sid
              Hu HorE Hsid) as (ls' & Ht & Hfo & Hv & Heq).
  cbv zeta in Heq. rewrite HltE in Heq.
  set (trip := {| TripData.station_id := sid;
                  TripData.timestamp := now_iso clk |}).
  set (w0 := set_localStorage (writeCardTrip u sid (now_iso clk) ls') w) in *.
  set (w1 := snd (handleDefaultScan env be clk entryId w)).
  assert (Hw1 : w1 = router_push "/enter" (offlineApi.createTrip be clk u sid w0))
    by (subst w1; rewrite Heq; reflexivity).
  assert (Hcards : sameCards w0 w1).
  { rewrite Hw1.
    exact (sameCards_trans _ _ _ (createTrip_frame be clk u sid w0)
             (proj1 (router_push_frame "/enter" _))). }
  assert (Hfares : sameFares w w1 /\ pushed w1 = pushed w ++ ["/enter"]).
  { rewrite Hw1. unfold offlineApi.createTrip.
    destruct (api_createTrip be u sid).
    - split; [ split | ]; reflexivity.
    - match goal with
      | |- context [FailedOpsWriter.writeFailedOperation clk ?op w0] =>
          destruct (writeFailedOperation_sameFares clk op w0) as [[Hf Hc] Hp]
      end.
      split; [ split | ]; cbn; [ rewrite Hf | rewrite Hc | rewrite Hp ];
        reflexivity. }
  destruct Hfares as [Hfares Hpush].
  assert (Hstate1 : cardState u w1
                    = {| cs_balance := cs_balance (cardState u w);
                         cs_activeTrip := Some trip |}).
  { rewrite (cardState_sameCards u _ _ Hcards). unfold cardState. subst w0.
    cbn. rewrite lookup_insert_eq, Hv. reflexivity. }
  assert (Htrip1 : cs_activeTrip (cardState u w1) = Some trip)
    by (rewrite Hstate1; reflexivity).
  assert (Hbal1 : cs_balance (cardState u w1) = cs_balance (cardState u w))
    by (rewrite Hstate1; reflexivity).
  assert (Hfare1 : fst (FareStore.fetchFareBetweenStations be2
                          (TripData.station_id trip) dest w1) = Some f).
  { cbn [TripData.station_id trip].
    rewrite <- Hfare. apply fetchFare_sameFares. exact Hfares. }
  destruct (handleScanToExit_with_trip env be2 clk2 exitId w1 u trip dest f
              Hu Htrip1 HorX Hdest Hfare1) as (ls2 & Ht2 & _ & Hv2 & Heq2).
  cbv zeta in Heq2. rewrite Hbal1, HltX in Heq2.
  cbv zeta. fold w1. rewrite Heq2. cbn [fst snd].
  split; [ rewrite Heq; reflexivity | ].
  split; [ unfold tripState; unfold cardState in Htrip1;
           cbn [cs_activeTrip] in Htrip1; rewrite Htrip1; reflexivity | ].
  split; [ reflexivity | ].
  match goal with
  | |- context [router_push ?p (syncExit be2 clk2 u dest f ?w3)] =>
      pose proof (sameCards_trans _ _ _ (syncExit_frame be2 clk2 u dest f w3)
                    (proj1 (router_push_frame p
                              (syncExit be2 clk2 u dest f w3)))) as Hsame;
      assert (Hp3 : pushed (router_push p (syncExit be2 clk2 u dest f w3))
                    = pushed w3 ++ [p])
  end.
  { cbn [pushed router_push]. f_equal. unfold syncExit.
    destruct (offlineApi.getCardByUuid be2 u) as [c | ]; [ | reflexivity ].
    destruct (offlineApi.getActiveTrip be2 (card_id c)) as [t | ];
      [ | reflexivity ].
    unfold offlineApi.completeTrip.
    destruct (api_completeTrip be2 (trip_id t) dest f); [ reflexivity | ].
    match goal with
    | |- context [FailedOpsWriter.writeFailedOperation clk2 ?op ?w3] =>
        exact (proj2 (writeFailedOperation_sameFares clk2 op w3))
    end. }
  split; [ | split ].
  - rewrite (cardState_sameCards u _ _ Hsame). unfold cardState. cbn.
    rewrite lookup_insert_eq, lookup_delete_eq. reflexivity.
  - unfold tripState. destruct Hsame as [_ Hst]. rewrite Hst. cbn.
    rewrite lookup_delete_eq. reflexivity.
  - rewrite Hp3. cbn [pushed set_localStorage].
    destruct (fetchFare_frame be2 (TripData.station_id trip) dest w1)
      as (_ & _ & _ & Hp1).
    cbv zeta in Hp1. rewrite Hp1, Hpush, <- app_assoc. reflexivity.
Qed.

End ScanRecords.

Section ScanRecordScenarios.

Import testConfig ScannerService.

Lemma entry_records_rejected_creation_witness :
  let r := fst (handleDefaultScan cardEnv unreachable clk1 (Some 1)
                  bootedOffline) in
  let w' := snd (handleDefaultScan cardEnv unreachable clk1 (Some 1)
                   bootedOffline) in
  r = ok /\
  exists failedOp,
    FailedOp.operation failedOp
      = {| Operation.type := CREATE_TRIP;
           Operation.data := CreateTripData testCard 1;
           Operation.timestamp := now_iso clk1 |} /\
    failedOps w' = failedOps bootedOffline ++ [failedOp] /\
    last (backlog w') = Some failedOp.
Proof.
  apply (entry_records_rejected_creation cardEnv unreachable clk1 (Some 1)
           bootedOffline testCard 1);
    solve [ vm_compute; reflexivity | discriminate ].
Defined.

Lemma exit_records_rejected_completion_witness :
  let r := fst (handleScanToExit cardEnv completionDown clk2 (Some 2)
                  entered) in
  let w' := snd (handleScanToExit cardEnv completionDown clk2 (Some 2)
                   entered) in
  r = ok /\
  exists failedOp,
    FailedOp.operation failedOp
      = {| Operation.type := COMPLETE_TRIP;
           Operation.data := CompleteTripData 7 2 3.25;
           Operation.timestamp := now_iso clk2 |} /\
    failedOps w' = failedOps entered ++ [failedOp] /\
    last (backlog w') = Some failedOp.
Proof.
  apply (exit_records_rejected_completion cardEnv completionDown clk2
           (Some 2) entered testCard (tripFrom 1) 2 3.25%float
           {| card_id := 1 |} {| trip_id := 7 |});
    solve [ vm_compute; reflexivity | discriminate ].
Defined.

Lemma enter_then_exit_witness :
  let w1 := snd (handleDefaultScan cardEnv unreachable clk1 (Some 1)
                   bootedOffline) in
  let r2 := fst (handleScanToExit cardEnv completionDown clk2 (Some 2) w1) in
  let w2 := snd (handleScanToExit cardEnv completionDown clk2 (Some 2) w1) in
  fst (handleDefaultScan cardEnv unreachable clk1 (Some 1) bootedOffline)
    = ok /\
  tripState testCard w1 = ACTIVE /\
  r2 = ok /\
  cardState testCard w2
    = {| cs_balance := (cs_balance (cardState testCard bootedOffline) - 3.25)%float;
         cs_activeTrip := None |} /\
  tripState testCard w2 = IDLE /\
  pushed w2 = pushed bootedOffline ++ ["/enter"; "/exit"].
Proof.
  apply (enter_then_exit cardEnv unreachable clk1 completionDown clk2
           (Some 1) (Some 2) bootedOffline testCard 1 2 3.25%float);
    solve [ vm_compute; reflexivity | discriminate ].
Defined.

End ScanRecordScenarios.

(** ** Scanner: top-up and card purchase *)

Section TopUpAndPurchase.

Import testConfig ScannerService.

Variables (be : Backend) (cards : CardApi) (clk : Clock).

Lemma addFunds_frame (cid : Z) (amount : float) (w : World) :
  sameCards w (offlineApi.addFunds cards clk cid amount w) /\
  pushed (offlineApi.addFunds cards clk cid amount w) = pushed w.
Proof.
  unfold offlineApi.addFunds. destruct (api_addFunds cards cid amount).
  - split; [ apply sameCards_refl | reflexivity ].
  - match goal with
    | |- context [FailedOpsWriter.writeFailedOperation clk ?op w] =>
        destruct (writeFailedOperation_spec clk op w) as (_ & _ & _ & _ & _ & H);
        destruct (writeFailedOperation_sameFares clk op w) as [_ Hp]
    end.
    split; assumption.
Qed.

Lemma syncAddFunds_frame (u : string) (amount : float) (w : World) :
  sameCards w (syncAddFunds be cards clk u amount w) /\
  pushed (syncAddFunds be cards clk u amount w) = pushed w.
Proof.
  unfold syncAddFunds. destruct (offlineApi.getCardByUuid be u) as [c | ].
  - apply addFunds_frame.
  - split; [ apply sameCards_refl | reflexivity ].
Qed.

(** The add-fare payment once a card is selected. *)
Lemma handleAddFarePayment_selected (k : Kiosk) (u : string) (b0 : float) :
  addFareStore.scannedCard (addFare k)
    = Some {| CardData.uuid := u; CardData.balance := b0 |} ->
  u <> "" ->
  let amount := addFareStore.selectedAmount (addFare k) in
  handleAddFarePayment be cards clk k
  = (ok,
     push "/add-fare/complete"
       (set_world
          (syncAddFunds be cards clk u amount
             (set_localStorage
                (writeCardBalance u (b0 + amount)%float
                   (localStorage (world k))) (world k)))
          (set_addFare
             (addFareStore.setScannedCard
                {| CardData.uuid := u;
                   CardData.balance := (b0 + amount)%float |} (addFare k))
             k))).
Proof.
  intros Hc Hu. unfold handleAddFarePayment. rewrite Hc.
  cbn [CardData.uuid CardData.balance].
  destruct u as [ | a s ]; [ congruence | ]. reflexivity.
Qed.

(** The ledger after a top-up of a selected card. *)
Lemma handleAddFarePayment_cards (k : Kiosk) (u : string) (b0 : float) :
  addFareStore.scannedCard (addFare k)
    = Some {| CardData.uuid := u; CardData.balance := b0 |} ->
  u <> "" ->
  let k' := snd (handleAddFarePayment be cards clk k) in
  cardState u (world k')
    = {| cs_balance := (b0 + addFareStore.selectedAmount (addFare k))%float;
         cs_activeTrip := cs_activeTrip (cardState u (world k)) |} /\
  (forall v, v <> u -> cardState v (world k') = cardState v (world k)) /\
  pushed (world k') = pushed (world k) ++ ["/add-fare/complete"].
Proof.
  intros Hc Hu. cbv zeta.
  rewrite (handleAddFarePayment_selected k u b0 Hc Hu). cbn [fst snd].
  match goal with
  | |- context [syncAddFunds be cards clk u ?a ?w2] =>
      destruct (syncAddFunds_frame u a w2) as [Hsame Hp]
  end.
  split; [ | split ].
  - unfold push. cbn [world set_world set_addFare].
    rewrite (cardState_sameCards u _ _
               (sameCards_trans _ _ _ Hsame
                  (proj1 (router_push_frame _ _)))).
    unfold cardState. cbn. rewrite lookup_insert_eq. reflexivity.
  - intros v Hne. unfold push. cbn [world set_world set_addFare].
    rewrite (cardState_sameCards v _ _
               (sameCards_trans _ _ _ Hsame
                  (proj1 (router_push_frame _ _)))).
    unfold cardState. cbn. rewrite lookup_insert_ne by congruence.
    reflexivity.
  - unfold push. cbn [world set_world set_addFare pushed router_push].
    rewrite Hp. reflexivity.
Qed.

(** A top-up writes the balance of the card as it was scanned into the
    add-fare store plus the selected amount (the ledger's current balance
    is not read), records the same figure in the store, and leaves the
    card's trip and every other card as they are. *)
Theorem topup_credits_scanned_balance (k : Kiosk) (u : string) (b0 : float) :
  addFareStore.scannedCard (addFare k)
    = Some {| CardData.uuid := u; CardData.balance := b0 |} ->
  u <> "" ->
  let amount := addFareStore.selectedAmount (addFare k) in
  let r := fst (handleAddFarePayment be cards clk k) in
  let k' := snd (handleAddFarePayment be cards clk k) in
  r = ok /\
  cardState u (world k')
    = {| cs_balance := (b0 + amount)%float;
         cs_activeTrip := cs_activeTrip (cardState u (world k)) |} /\
  (forall v, v <> u -> cardState v (world k') = cardState v (world k)) /\
  addFareStore.scannedCard (addFare k')
    = Some {| CardData.uuid := u; CardData.balance := (b0 + amount)%float |} /\
  addFareStore.selectedAmount (addFare k') = amount /\
  pushed (world k') = pushed (world k) ++ ["/add-fare/complete"].
Proof.
  intros Hc Hu.
  destruct (handleAddFarePayment_cards k u b0 Hc Hu) as (H1 & H2 & H3).
  cbv zeta in *. repeat (split; [ assumption || idtac | ]); try assumption;
    rewrite (handleAddFarePayment_selected k u b0 Hc Hu); reflexivity.
Qed.

(** Scanning a card on the add-fare screen, selecting an amount and paying
    credits the card: its ledger balance grows by the amount (in binary64
    addition) and its trip, like every other card, is left as it is. *)
Theorem scan_select_pay_credits_card (env : Env) (amount : float) (k : Kiosk)
    (u : string) :
  VITE_TEST_CARD_UUID env = Some u ->
  u <> "" ->
  let k1 := snd (handleAddFareScan env k) in
  let k2 := set_addFare (addFareStore.setAmount amount (addFare k1)) k1 in
  let k3 := snd (handleAddFarePayment be cards clk k2) in
  fst (handleAddFareScan env k) = ok /\
  fst (handleAddFarePayment be cards clk k2) = ok /\
  cardState u (world k3)
    = {| cs_balance := (cs_balance (cardState u (world k)) + amount)%float;
         cs_activeTrip := cs_activeTrip (cardState u (world k)) |} /\
  (forall v, v <> u -> cardState v (world k3) = cardState v (world k)).
Proof.
  intros Hu Hne.
  destruct (scanCard_spec env u (localStorage (world k)) Hu)
    as (ls' & Hs & Ht & Hfo & Hk & Hb & Hv).
  assert (Hscan : handleAddFareScan env k
                  = (ok,
                     push "/add-fare/select-amount"
                       (set_addFare
                          (addFareStore.setScannedCard
                             {| CardData.uuid := u;
                                CardData.balance :=
                                  cs_balance (cardState u (world k)) |}
                             (addFare k))
                          (set_world (set_localStorage ls' (world k)) k)))).
  { unfold handleAddFareScan. rewrite Hs. reflexivity. }
  cbv zeta. rewrite Hscan. cbn [fst snd].
  match goal with
  | |- context [handleAddFarePayment be cards clk ?k2] =>
      assert (Hsel : addFareStore.scannedCard (addFare k2)
                     = Some {| CardData.uuid := u;
                               CardData.balance :=
                                 cs_balance (cardState u (world k)) |})
        by reflexivity;
      destruct (handleAddFarePayment_cards k2 u _ Hsel Hne) as (H1 & H2 & _);
      pose proof (handleAddFarePayment_selected k2 u _ Hsel Hne) as Heq
  end.
  cbv zeta in H1, H2, Heq.
  split; [ reflexivity | ]. split; [ rewrite Heq; reflexivity | ].
  split.
  - rewrite H1. unfold cardState. cbn. rewrite Ht. reflexivity.
  - intros v Hv'. rewrite (H2 v Hv'). unfold cardState. cbn.
    rewrite Ht, Hv. reflexivity.
Qed.

(** Without a selected card the payment scan fails with
    ["No card selected"] and changes nothing. *)
Theorem topup_without_card (k : Kiosk) :
  (forall c, addFareStore.scannedCard (addFare k) = Some c ->
             CardData.uuid c = "") ->
  handleAddFarePayment be cards clk k = (failure "No card selected", k).
Proof.
  intros H. unfold handleAddFarePayment.
  destruct (addFareStore.scannedCard (addFare k)) as [c | ]; [ | reflexivity ].
  rewrite (H c eq_refl). reflexivity.
Qed.

(** When the card lookup of a top-up yields nothing (the request rejects,
    as it does when the backend is unreachable, or resolves with [null]),
    the funding request is never made and the failure sink is left as it
    is: the top-up is credited locally and recorded nowhere. *)
Theorem topup_without_lookup_records_nothing (k : Kiosk) (u : string)
    (b0 : float) :
  addFareStore.scannedCard (addFare k)
    = Some {| CardData.uuid := u; CardData.balance := b0 |} ->
  u <> "" ->
  offlineApi.getCardByUuid be u = None ->
  let k' := snd (handleAddFarePayment be cards clk k) in
  fst (handleAddFarePayment be cards clk k) = ok /\
  cs_balance (cardState u (world k'))
    = (b0 + addFareStore.selectedAmount (addFare k))%float /\
  sinkState (world k') = sinkState (world k).
Proof.
  intros Hc Hu Hn. cbv zeta.
  rewrite (handleAddFarePayment_selected k u b0 Hc Hu). cbn [fst snd].
  unfold syncAddFunds. rewrite Hn.
  split; [ reflexivity | ]. split.
  - unfold cardState. cbn. rewrite lookup_insert_eq. reflexivity.
  - reflexivity.
Qed.

(** When the card lookup resolves and the funding request rejects, the
    top-up records exactly one ADD_FUNDS operation carrying the backend's
    card identifier and the amount. *)
Theorem topup_records_rejected_funding (k : Kiosk) (u : string) (b0 : float)
    (card : Card) :
  addFareStore.scannedCard (addFare k)
    = Some {| CardData.uuid := u; CardData.balance := b0 |} ->
  u <> "" ->
  api_getCardByUuid be u = Some (Some card) ->
  api_addFunds cards (card_id card) (addFareStore.selectedAmount (addFare k))
    = None ->
  let k' := snd (handleAddFarePayment be cards clk k) in
  exists failedOp,
    FailedOp.operation failedOp
      = {| Operation.type := ADD_FUNDS;
           Operation.data :=
             AddFundsData (card_id card)
               (addFareStore.selectedAmount (addFare k));
           Operation.timestamp := now_iso clk |} /\
    failedOps (world k') = failedOps (world k) ++ [failedOp] /\
    last (backlog (world k')) = Some failedOp.
Proof.
  intros Hc Hu Hl Hrej. cbv zeta.
  rewrite (handleAddFarePayment_selected k u b0 Hc Hu). cbn [fst snd].
  unfold syncAddFunds, offlineApi.getCardByUuid, offlineApi.addFunds.
  rewrite Hl, Hrej.
  match goal with
  | |- context [FailedOpsWriter.writeFailedOperation clk ?op ?w2] =>
      destruct (record_newest clk op w2) as (f & Hop & Hm & Hlast)
  end.
  exists f. split; [ exact Hop | ]. split.
  - unfold push. cbn [world set_world set_addFare failedOps router_push].
    rewrite Hm. reflexivity.
  - unfold push, backlog in *.
    cbn [world set_world set_addFare localStorage router_push].
    exact Hlast.
Qed.

(** A card purchase stores the selected amount as the balance of the new
    card identifier, remembers the card in the purchase store, and leaves
    every other card as it is.  The creation request needs no lookup: when
    it rejects, exactly one CREATE_CARD operation with the amount and the
    identifier is recorded; when it resolves, the sink is untouched. *)
Theorem purchase_creates_card (newCardUuid : string) (k : Kiosk) :
  let amount := purchaseCardStore.selectedAmount (purchaseCard k) in
  let r := fst (handlePurchaseCardPayment cards clk newCardUuid k) in
  let k' := snd (handlePurchaseCardPayment cards clk newCardUuid k) in
  r = ok /\
  cardState newCardUuid (world k')
    = {| cs_balance := amount;
         cs_activeTrip := cs_activeTrip (cardState newCardUuid (world k)) |} /\
  (forall v, v <> newCardUuid ->
             cardState v (world k') = cardState v (world k)) /\
  purchaseCardStore.createdCard (purchaseCard k')
    = Some {| CardData.uuid := newCardUuid; CardData.balance := amount |} /\
  match api_createCard cards amount newCardUuid with
  | Some _ => sinkState (world k') = sinkState (world k)
  | None =>
      exists failedOp,
        FailedOp.operation failedOp
          = {| Operation.type := CREATE_CARD;
               Operation.data := CreateCardData amount newCardUuid;
               Operation.timestamp := now_iso clk |} /\
        failedOps (world k') = failedOps (world k) ++ [failedOp] /\
        last (backlog (world k')) = Some failedOp
  end.
Proof.
  cbv zeta. unfold handlePurchaseCardPayment. cbn [fst snd].
  split; [ reflexivity | ].
  set (amount := purchaseCardStore.selectedAmount (purchaseCard k)).
  set (w2 := set_localStorage
               (writeCardBalance newCardUuid amount (localStorage (world k)))
               (world k)).
  assert (Hsame : sameCards w2
                    (offlineApi.createCard cards clk amount newCardUuid w2)).
  { unfold offlineApi.createCard.
    destruct (api_createCard cards amount newCardUuid).
    - apply sameCards_refl.
    - match goal with
      | |- context [FailedOpsWriter.writeFailedOperation clk ?op w2] =>
          destruct (writeFailedOperation_spec clk op w2)
            as (_ & _ & _ & _ & _ & H)
      end.
      exact H. }
  unfold push. cbn [world set_world set_purchaseCard purchaseCard].
  fold amount. fold w2.
  split; [ | split; [ | split ] ].
  - rewrite (cardState_sameCards newCardUuid _ _
               (sameCards_trans _ _ _ Hsame (proj1 (router_push_frame _ _)))).
    unfold cardState. subst w2. cbn. rewrite lookup_insert_eq. reflexivity.
  - intros v Hne.
    rewrite (cardState_sameCards v _ _
               (sameCards_trans _ _ _ Hsame (proj1 (router_push_frame _ _)))).
    unfold cardState. subst w2. cbn.
    rewrite lookup_insert_ne by congruence. reflexivity.
  - reflexivity.
  - unfold offlineApi.createCard.
    destruct (api_createCard cards amount newCardUuid).
    + reflexivity.
    + match goal with
      | |- context [FailedOpsWriter.writeFailedOperation clk ?op w2] =>
          destruct (record_newest clk op w2) as (f & Hop & Hm & Hlast)
      end.
      exists f. split; [ exact Hop | ]. split.
      * cbn [failedOps router_push]. rewrite Hm. reflexivity.
      * unfold backlog in *. cbn [localStorage router_push]. exact Hlast.
Qed.

End TopUpAndPurchase.

Section TopUpScenarios.

Import testConfig ScannerService.

Lemma topup_credits_scanned_balance_witness :
  let k := topUpKiosk in
  let amount := addFareStore.selectedAmount (addFare k) in
  let r := fst (handleAddFarePayment unreachable cardsDown clk2 k) in
  let k' := snd (handleAddFarePayment unreachable cardsDown clk2 k) in
  r = ok /\
  cardState testCard (world k')
    = {| cs_balance := (25 + amount)%float;
         cs_activeTrip := cs_activeTrip (cardState testCard (world k)) |} /\
  (forall v, v <> testCard -> cardState v (world k') = cardState v (world k)) /\
  addFareStore.scannedCard (addFare k')
    = Some {| CardData.uuid := testCard;
              CardData.balance := (25 + amount)%float |} /\
  addFareStore.selectedAmount (addFare k') = amount /\
  pushed (world k') = pushed (world k) ++ ["/add-fare/complete"].
Proof.
  apply (topup_credits_scanned_balance unreachable cardsDown clk2 topUpKiosk
           testCard 25%float);
    solve [ vm_compute; reflexivity | discriminate ].
Defined.

Lemma topup_without_card_witness :
  handleAddFarePayment unreachable cardsDown clk2 (kioskOf entered)
  = (failure "No card selected", kioskOf entered).
Proof.
  apply (topup_without_card unreachable cardsDown clk2 (kioskOf entered)).
  intros c H. discriminate H.
Defined.

Lemma topup_without_lookup_records_nothing_witness :
  let k := topUpKiosk in
  let k' := snd (handleAddFarePayment unreachable cardsDown clk2 k) in
  fst (handleAddFarePayment unreachable cardsDown clk2 k) = ok /\
  cs_balance (cardState testCard (world k'))
    = (25 + addFareStore.selectedAmount (addFare k))%float /\
  sinkState (world k') = sinkState (world k).
Proof.
  apply (topup_without_lookup_records_nothing unreachable cardsDown clk2
           topUpKiosk testCard 25%float);
    solve [ vm_compute; reflexivity | discriminate ].
Defined.

Lemma topup_records_rejected_funding_witness :
  let k := topUpKiosk in
  let k' := snd (handleAddFarePayment completionDown cardsDown clk2 k) in
  exists failedOp,
    FailedOp.operation failedOp
      = {| Operation.type := ADD_FUNDS;
           Operation.data :=
             AddFundsData 1 (addFareStore.selectedAmount (addFare k));
           Operation.timestamp := now_iso clk2 |} /\
    failedOps (world k') = failedOps (world k) ++ [failedOp] /\
    last (backlog (world k')) = Some failedOp.
Proof.
  apply (topup_records_rejected_funding completionDown cardsDown clk2
           topUpKiosk testCard 25%float {| card_id := 1 |});
    solve [ vm_compute; reflexivity | discriminate ].
Defined.

Lemma scan_select_pay_credits_card_witness :
  let k1 := snd (handleAddFareScan cardEnv (kioskOf entered)) in
  let k2 := set_addFare (addFareStore.setAmount 20 (addFare k1)) k1 in
  let k3 := snd (handleAddFarePayment unreachable cardsDown clk2 k2) in
  fst (handleAddFareScan cardEnv (kioskOf entered)) = ok /\
  fst (handleAddFarePayment unreachable cardsDown clk2 k2) = ok /\
  cardState testCard (world k3)
    = {| cs_balance :=
           (cs_balance (cardState testCard (world (kioskOf entered))) + 20)%float;
         cs_activeTrip :=
           cs_activeTrip (cardState testCard (world (kioskOf entered))) |} /\
  (forall v, v <> testCard ->
             cardState v (world k3) = cardState v (world (kioskOf entered))).
Proof.
  apply (scan_select_pay_credits_card unreachable cardsDown clk2 cardEnv 20
           (kioskOf entered) testCard);
    solve [ vm_compute; reflexivity | discriminate ].
Defined.

End TopUpScenarios.

(** ** Amount selection and navigation context *)

Section AmountButtons.

Lemma onAmountGrid_cases (x : float) :
  onAmountGrid x = true -> exists m, In m (seq 0 41) /\ x = fiveTimes m.
Proof.
  unfold onAmountGrid. intros H.
  apply existsb_exists in H as (m & Hin & Heq).
  exists m. split; [ exact Hin | ].
  apply FloatAxioms.Leibniz.eqb_spec. exact Heq.
Qed.

Lemma onAmountGrid_bounds (x : float) :
  onAmountGrid x = true -> (0 <=? x)%float = true /\ (x <=? 200)%float = true.
Proof.
  intros H. apply onAmountGrid_cases in H as (m & Hin & ->).
  simpl in Hin.
  repeat (destruct Hin as [<- | Hin]; [ split; vm_compute; reflexivity | ]).
  destruct Hin.
Qed.

Lemma addFare_press_on_grid (b : AmountButton) (st : addFareStore.t) :
  onAmountGrid (addFareStore.selectedAmount st) = true ->
  onAmountGrid (addFareStore.selectedAmount
                  (AddFareSelectAmountView.press b st)) = true /\
  addFareStore.scannedCard (AddFareSelectAmountView.press b st)
    = addFareStore.scannedCard st.
Proof.
  destruct st as [a c]. cbn [addFareStore.selectedAmount]. intros H.
  apply onAmountGrid_cases in H as (m & Hin & ->).
  simpl in Hin.
  repeat (destruct Hin as [<- | Hin];
          [ destruct b; split; vm_compute; reflexivity | ]).
  destruct Hin.
Qed.

Lemma purchase_press_on_grid (b : AmountButton) (st : purchaseCardStore.t) :
  onAmountGrid (purchaseCardStore.selectedAmount st) = true ->
  onAmountGrid (purchaseCardStore.selectedAmount
                  (PurchaseCardSelectAmountView.press b st)) = true /\
  purchaseCardStore.createdCard (PurchaseCardSelectAmountView.press b st)
    = purchaseCardStore.createdCard st.
Proof.
  destruct st as [a c]. cbn [purchaseCardStore.selectedAmount]. intros H.
  apply onAmountGrid_cases in H as (m & Hin & ->).
  simpl in Hin.
  repeat (destruct Hin as [<- | Hin];
          [ destruct b; split; vm_compute; reflexivity | ]).
  destruct Hin.
Qed.

(** Whatever buttons are pressed on the add-fare amount screen, in whatever
    order, an amount that is a multiple of 5 between 0 and 200 stays one:
    the top-up amount never leaves the range [0, 200], and the scanned card
    is not touched. *)
Theorem addFare_amount_stays_in_range (presses : list AmountButton)
    (st : addFareStore.t) :
  onAmountGrid (addFareStore.selectedAmount st) = true ->
  let st' := foldl (fun s b => AddFareSelectAmountView.press b s) st presses in
  onAmountGrid (addFareStore.selectedAmount st') = true /\
  (0 <=? addFareStore.selectedAmount st')%float = true /\
  (addFareStore.selectedAmount st' <=? 200)%float = true /\
  addFareStore.scannedCard st' = addFareStore.scannedCard st.
Proof.
  revert st. induction presses as [ | b presses IH ]; intros st H; cbn zeta.
  - simpl. destruct (onAmountGrid_bounds _ H). auto.
  - simpl foldl. destruct (addFare_press_on_grid b st H) as [Hg Hc].
    destruct (IH _ Hg) as (H1 & H2 & H3 & H4).
    cbv zeta in *. rewrite <- Hc. auto.
Qed.

Lemma addFare_amount_stays_in_range_witness :
  let st' := foldl (fun s b => AddFareSelectAmountView.press b s)
               addFareStore.init [Minus5; Plus20; Plus20; Minus5; Plus5] in
  onAmountGrid (addFareStore.selectedAmount st') = true /\
  (0 <=? addFareStore.selectedAmount st')%float = true /\
  (addFareStore.selectedAmount st' <=? 200)%float = true /\
  addFareStore.scannedCard st' = addFareStore.scannedCard addFareStore.init.
Proof.
  apply (addFare_amount_stays_in_range
           [Minus5; Plus20; Plus20; Minus5; Plus5] addFareStore.init).
  vm_compute. reflexivity.
Defined.

(** The same on the purchase screen, which starts from 15.00: the initial
    balance of a purchased card is a multiple of 5 between 0 and 200. *)
Theorem purchase_amount_stays_in_range (presses : list AmountButton) :
  let st' := foldl (fun s b => PurchaseCardSelectAmountView.press b s)
               purchaseCardStore.init presses in
  onAmountGrid (purchaseCardStore.selectedAmount st') = true /\
  (0 <=? purchaseCardStore.selectedAmount st')%float = true /\
  (purchaseCardStore.selectedAmount st' <=? 200)%float = true.
Proof.
  cbv zeta.
  assert (Hgen : forall st,
            onAmountGrid (purchaseCardStore.selectedAmount st) = true ->
            onAmountGrid
              (purchaseCardStore.selectedAmount
                 (foldl (fun s b => PurchaseCardSelectAmountView.press b s)
                        st presses)) = true).
  { induction presses as [ | b presses IH ]; intros st H; simpl.
    - exact H.
    - apply IH. apply (purchase_press_on_grid b st H). }
  assert (H := Hgen purchaseCardStore.init eq_refl).
  destruct (onAmountGrid_bounds _ H). auto.
Qed.

End AmountButtons.

Section Navigation.

Import navigationStore.

Lemma setContext_cases (c : string) (st : t) :
  context (setContext c st) = if validContext c then c else context st.
Proof. unfold setContext, validContext. destruct (_ || _); reflexivity. Qed.

(** The navigation context is always the last accepted value: after any
    sequence of [setContext] calls it is the last of the values ['enter']
    or ['exit'] among them (['enter'] if there is none), every other value
    having been ignored; and the return path is [/scan-to-exit] when that
    value is ['exit'] and [/] otherwise. *)
Theorem navigation_context_is_last_valid (values : list string) :
  let st := foldl (fun s c => setContext c s) init values in
  getContext st = default "enter" (last (List.filter validContext values)) /\
  (getContext st = "enter" \/ getContext st = "exit") /\
  getReturnPath st
    = (if String.eqb (getContext st) "exit" then "/scan-to-exit" else "/").
Proof.
  cbv zeta.
  assert (H : getContext (foldl (fun s c => setContext c s) init values)
              = default "enter" (last (List.filter validContext values))).
  { induction values as [ | c values IH ] using rev_ind.
    - reflexivity.
    - rewrite foldl_app. simpl foldl. unfold getContext in *.
      rewrite setContext_cases, List.filter_app. simpl List.filter.
      destruct (validContext c).
      + rewrite last_snoc. reflexivity.
      + rewrite app_nil_r. exact IH. }
  split; [ exact H | ]. split; [ | reflexivity ].
  rewrite H.
  destruct (last (List.filter validContext values)) as [c | ] eqn:E;
    [ | left; reflexivity ].
  apply last_Some in E as [l' E].
  assert (Hin : In c (List.filter validContext values))
    by (rewrite E; apply in_or_app; right; left; reflexivity).
  apply List.filter_In in Hin as [_ Hv]. unfold validContext in Hv.
  apply orb_prop in Hv as [Hv | Hv]; apply String.eqb_eq in Hv; subst;
    [ left | right ]; reflexivity.
Qed.

End Navigation.
